(** * Onboarding form: normalizers, schema, remote verification and submission

    A shallow embedding of the validation-and-submission core of the
    onboarding form:

    - [utils/validation.ts]: [cleanPhoneInput], [canadianPhoneRegex],
      [onboardingFormSchema];
    - [services/api.ts]: the response interceptor and the two calls of
      [ApiService];
    - [hooks/useCorporationValidation.ts], [hooks/useFormSubmission.ts];
    - [components/OnboardingForm.tsx]: the change, blur and submit handlers
      and the error shown for the corporation-number field.

    JavaScript strings are modelled as [string]: a sequence of code units,
    here the code units below 256.  [String.length] is the [.length] of the
    source.  An optional property ([message?: string]) is an [option]. *)

From stdpp Require Import base strings gmap list.
From Stdlib Require Import ZArith Ascii String Lia.

Local Open Scope string_scope.

(** ** JavaScript string primitives used by the source *)

Module Js.

(** [\d] without the unicode flag: the ten ASCII digits. *)
Definition is_digit (c : ascii) : bool :=
  let n := nat_of_ascii c in ((48 <=? n) && (n <=? 57))%nat.

Definition is_plus (c : ascii) : bool := Ascii.eqb c "+"%char.

(** White space and line terminators removed by [String.prototype.trim],
    among the code units below 256: TAB, LF, VT, FF, CR, SP and NBSP. *)
Definition is_space (c : ascii) : bool :=
  let n := nat_of_ascii c in
  (((9 <=? n) && (n <=? 13)) || (n =? 32) || (n =? 160))%nat.

(** [s.replace(/[cls]/g, '')]: every code unit of the class is removed. *)
Fixpoint remove_all (cls : ascii -> bool) (s : string) : string :=
  match s with
  | EmptyString => EmptyString
  | String c s' => if cls c then remove_all cls s' else String c (remove_all cls s')
  end.

(** [s.replace(/^\+?/, '')]: at most one leading [+] is removed. *)
Definition remove_leading_plus (s : string) : string :=
  match s with
  | String c s' => if is_plus c then s' else s
  | EmptyString => EmptyString
  end.

(** [s.startsWith(p)]. *)
Fixpoint startsWith (s p : string) {struct p} : bool :=
  match p, s with
  | EmptyString, _ => true
  | String a p', String b s' => Ascii.eqb b a && startsWith s' p'
  | String _ _, EmptyString => false
  end.

(** [s.substring(0, n)]. *)
Definition substring0 (n : nat) (s : string) : string := String.substring 0 n s.

Fixpoint all_chars (cls : ascii -> bool) (s : string) : bool :=
  match s with
  | EmptyString => true
  | String c s' => cls c && all_chars cls s'
  end.

Fixpoint trimStart (s : string) : string :=
  match s with
  | EmptyString => EmptyString
  | String c s' => if is_space c then trimStart s' else s
  end.

(** [trimEnd]: a white-space code unit is dropped when everything after it
    has been dropped. *)
Fixpoint trimEnd (s : string) : string :=
  match s with
  | EmptyString => EmptyString
  | String c s' =>
      match trimEnd s' with
      | EmptyString => if is_space c then EmptyString else String c EmptyString
      | t => String c t
      end
  end.

Definition trim (s : string) : string := trimEnd (trimStart s).

(** Truthiness of a string: the empty string is falsy. *)
Definition truthy (s : string) : bool :=
  match s with EmptyString => false | _ => true end.

(** [a || b] on strings. *)
Definition or_else (a b : string) : string := if truthy a then a else b.

(** [a || b] where [a] may be [undefined]. *)
Definition opt_or_else (a : option string) (b : string) : string :=
  match a with
  | Some m => or_else m b
  | None => b
  end.

(** [a || b] where both may be [undefined]. *)
Definition opt_or (a b : option string) : option string :=
  match a with
  | Some m => if truthy m then Some m else b
  | None => b
  end.

End Js.

(** ** [utils/validation.ts]: the phone normalizer *)

Definition not_digit_or_plus (c : ascii) : bool :=
  negb (Js.is_digit c || Js.is_plus c).

Definition cleanPhoneInput (input : string) : string :=
  let cleaned := Js.remove_all not_digit_or_plus input in
  if negb (Js.startsWith cleaned "+1") then
    if Js.startsWith cleaned "1" then
      "+" ++ cleaned
    else
      "+1" ++ Js.remove_leading_plus cleaned
  else
    Js.substring0 12 cleaned.

(** ** [utils/validation.ts]: the schema

    [z.string()] keeps its checks in the order they were chained and runs
    them in that order over the current data: [min], [max], [length] and
    [regex] test the data as it is at that point and add an issue when they
    fail (the later checks still run); [trim] replaces the data by its
    trimmed form for the checks after it and for the parsed value. *)

Module Zod.

Inductive StringCheck : Type :=
| min (value : nat) (message : string)
| max (value : nat) (message : string)
| length (value : nat) (message : string)
| regex (re : string -> bool) (message : string)
| trim.

(** The issues raised by the checks from [data] on, and the final data. *)
Fixpoint runChecks (checks : list StringCheck) (data : string) : list string * string :=
  match checks with
  | [] => ([], data)
  | check :: checks' =>
      match check with
      | min value message =>
          let r := runChecks checks' data in
          (if (String.length data <? value)%nat then message :: r.1 else r.1, r.2)
      | max value message =>
          let r := runChecks checks' data in
          (if (value <? String.length data)%nat then message :: r.1 else r.1, r.2)
      | length value message =>
          let r := runChecks checks' data in
          (if negb (String.length data =? value)%nat then message :: r.1 else r.1, r.2)
      | regex re message =>
          let r := runChecks checks' data in
          (if negb (re data) then message :: r.1 else r.1, r.2)
      | trim => runChecks checks' (Js.trim data)
      end
  end.

(** The message of the type check that [z.string()] makes first: the input
    is [undefined]. *)
Definition required_message : string := "Required".

(** [schema.safeParse(input)]: the parsed value, or the issues' messages. *)
Definition safeParse (checks : list StringCheck) (input : option string)
  : string + list string :=
  match input with
  | None => inr [required_message]
  | Some data =>
      match runChecks checks data with
      | ([], value) => inl value
      | (issues, _) => inr issues
      end
  end.

End Zod.

(** A regular expression [/^c1c2...cn$/] of [n] character classes: the
    string has exactly [n] code units, each in its class. *)
Fixpoint matches_classes (classes : list (ascii -> bool)) (s : string) : bool :=
  match classes, s with
  | [], EmptyString => true
  | cls :: classes', String c s' => cls c && matches_classes classes' s'
  | _, _ => false
  end.

Definition is_char (x : ascii) (c : ascii) : bool := Ascii.eqb c x.

(** [[2-9]] *)
Definition is_2_to_9 (c : ascii) : bool :=
  let n := nat_of_ascii c in ((50 <=? n) && (n <=? 57))%nat.

(** [/^\+1[2-9]\d{2}[2-9]\d{2}\d{4}$/] *)
Definition canadianPhoneRegex : string -> bool :=
  matches_classes
    ([is_char "+"; is_char "1"; is_2_to_9] ++ repeat Js.is_digit 2
       ++ [is_2_to_9] ++ repeat Js.is_digit 2 ++ repeat Js.is_digit 4).

(** [/^\d{9}$/] *)
Definition nine_digits_regex : string -> bool :=
  matches_classes (repeat Js.is_digit 9).

Definition validatePhoneFormat (phone : string) : bool := canadianPhoneRegex phone.

Module OnboardingFormData.
Record t : Type := mk {
  firstName : string;
  lastName : string;
  phone : string;
  corporationNumber : string
}.
End OnboardingFormData.

Module onboardingFormSchema.

Definition firstName : list Zod.StringCheck :=
  [ Zod.min 1 "First name is required";
    Zod.max 50 "First name must be 50 characters or less";
    Zod.trim ].

Definition lastName : list Zod.StringCheck :=
  [ Zod.min 1 "Last name is required";
    Zod.max 50 "Last name must be 50 characters or less";
    Zod.trim ].

Definition phone : list Zod.StringCheck :=
  [ Zod.min 1 "Phone number is required";
    Zod.regex canadianPhoneRegex
      "Phone number must be a valid Canadian number starting with +1 followed by 10 digits";
    Zod.trim ].

Definition corporationNumber : list Zod.StringCheck :=
  [ Zod.min 1 "Corporation number is required";
    Zod.length 9 "Corporation number must be exactly 9 characters";
    Zod.regex nine_digits_regex "Corporation number must contain only digits" ].

(** The shape of the [z.object]: the checks of a field, by its name. *)
Definition shape (field : string) : option (list Zod.StringCheck) :=
  if decide (field = "firstName") then Some firstName
  else if decide (field = "lastName") then Some lastName
  else if decide (field = "phone") then Some phone
  else if decide (field = "corporationNumber") then Some corporationNumber
  else None.

(** The first issue of a field of [input], as the resolver reports it. *)
Definition fieldError (field : string) (input : gmap string string) : option string :=
  match shape field with
  | Some checks =>
      match Zod.safeParse checks (input !! field) with
      | inl _ => None
      | inr issues => head issues
      end
  | None => None
  end.

(** [safeParse] of the object: every field is parsed on its own; the result
    is the parsed data when no field has an issue, and otherwise the first
    message of each field that has one. *)
Definition safeParse (input : gmap string string)
  : OnboardingFormData.t + gmap string string :=
  match Zod.safeParse firstName (input !! "firstName"),
        Zod.safeParse lastName (input !! "lastName"),
        Zod.safeParse phone (input !! "phone"),
        Zod.safeParse corporationNumber (input !! "corporationNumber") with
  | inl f, inl l, inl p, inl c => inl (OnboardingFormData.mk f l p c)
  | _, _, _, _ =>
      inr (list_to_map
             (omap (fun field => pair field <$> fieldError field input)
                ["firstName"; "lastName"; "phone"; "corporationNumber"]))
  end.

End onboardingFormSchema.

(** ** [types/index.ts] *)

Module CorporationValidationResponse.
Record t : Type := mk {
  corporationNumber : string;
  valid : bool;
  message : option string
}.
End CorporationValidationResponse.

Module ApiError.
Record t : Type := mk {
  message : string;
  status : option Z
}.
End ApiError.

(** ** The transport

    An [AxiosError]: [error.message] and [error.response?.status], which
    the code reads, and the message of the body the service answered with,
    [error.response?.data?.message], which the code never reads. *)

Module AxiosError.
Record t : Type := mk {
  message : string;
  response_status : option Z;
  response_data_message : option string
}.
End AxiosError.

Inductive AxiosResult (A : Type) : Type :=
| Fulfilled (data : A)
| Rejected (error : AxiosError.t).
Arguments Fulfilled {A} data.
Arguments Rejected {A} error.

(** The remote service, as the transport sees it: the outcome of a [GET] of
    a path and of a [POST] of a body to a path. *)
Record Network : Type := {
  get : string -> AxiosResult CorporationValidationResponse.t;
  post : string -> OnboardingFormData.t -> AxiosResult unit
}.

Inductive Request : Type :=
| GET (url : string)
| POST (url : string) (body : OnboardingFormData.t).

(** A value caught by a [catch]: whether it is an [instanceof Error], and
    its [message] and [status] properties. *)
Record Thrown : Type := {
  instanceofError : bool;
  thrown : ApiError.t
}.

(** ** The state of the form session *)

(** [useCorporationValidation]'s two [useState] cells. *)
Record CorporationValidationState : Type := {
  isValidating : bool;
  validationResult : option CorporationValidationResponse.t
}.

(** [useFormSubmission]'s three [useState] cells. *)
Record FormSubmissionState : Type := {
  isSubmitting : bool;
  submitError : option string;
  isSuccess : bool
}.

(** The store of [useForm]: the fields' values and [formState.errors], both
    keyed by field name, and [formState.isSubmitted]. A field that was
    never registered has no value. *)
Record FormStore : Type := {
  values : gmap string string;
  errors : gmap string string;
  isSubmitted : bool
}.

Record World : Type := {
  corporationValidation : CorporationValidationState;
  formSubmission : FormSubmissionState;
  formErrors : gmap string string;
  form : FormStore;
  requests : list Request
}.

(** The state when the form is mounted: [register] has given each of the
    four inputs its value, the empty string. *)
Definition mount : World := {|
  corporationValidation := {| isValidating := false; validationResult := None |};
  formSubmission := {| isSubmitting := false; submitError := None; isSuccess := false |};
  formErrors := ∅;
  form :=
    {| values :=
         <["firstName" := ""]> (<["lastName" := ""]> (<["phone" := ""]>
           (<["corporationNumber" := ""]> ∅)));
       errors := ∅;
       isSubmitted := false |};
  requests := []
|}.

(** Handlers are state transformers over the session, with a result. *)
Definition M (A : Type) : Type := World -> A * World.

#[export] Instance M_ret : MRet M := fun A (x : A) (w : World) => (x, w).

#[export] Instance M_bind : MBind M :=
  fun A B (f : A -> M B) (m : M A) (w : World) => f (m w).1 (m w).2.

Definition gets {A : Type} (f : World -> A) : M A := fun w => (f w, w).

Definition modify (f : World -> World) : M unit := fun w => (tt, f w).

Definition with_corporationValidation
  (f : CorporationValidationState -> CorporationValidationState) (w : World) : World :=
  {| corporationValidation := f (corporationValidation w);
     formSubmission := formSubmission w;
     formErrors := formErrors w;
     form := form w;
     requests := requests w |}.

Definition with_formSubmission
  (f : FormSubmissionState -> FormSubmissionState) (w : World) : World :=
  {| corporationValidation := corporationValidation w;
     formSubmission := f (formSubmission w);
     formErrors := formErrors w;
     form := form w;
     requests := requests w |}.

Definition with_formErrors (e : gmap string string) (w : World) : World :=
  {| corporationValidation := corporationValidation w;
     formSubmission := formSubmission w;
     formErrors := e;
     form := form w;
     requests := requests w |}.

Definition with_form (f : FormStore -> FormStore) (w : World) : World :=
  {| corporationValidation := corporationValidation w;
     formSubmission := formSubmission w;
     formErrors := formErrors w;
     form := f (form w);
     requests := requests w |}.

Definition with_request (r : Request) (w : World) : World :=
  {| corporationValidation := corporationValidation w;
     formSubmission := formSubmission w;
     formErrors := formErrors w;
     form := form w;
     requests := requests w ++ [r] |}.

Definition setIsValidating (b : bool) : M unit :=
  modify (with_corporationValidation (fun s =>
    {| isValidating := b; validationResult := validationResult s |})).

Definition setValidationResult (r : option CorporationValidationResponse.t) : M unit :=
  modify (with_corporationValidation (fun s =>
    {| isValidating := isValidating s; validationResult := r |})).

Definition setIsSubmitting (b : bool) : M unit :=
  modify (with_formSubmission (fun s =>
    {| isSubmitting := b; submitError := submitError s; isSuccess := isSuccess s |})).

Definition setSubmitError (e : option string) : M unit :=
  modify (with_formSubmission (fun s =>
    {| isSubmitting := isSubmitting s; submitError := e; isSuccess := isSuccess s |})).

Definition setIsSuccess (b : bool) : M unit :=
  modify (with_formSubmission (fun s =>
    {| isSubmitting := isSubmitting s; submitError := submitError s; isSuccess := b |})).

Definition setFormErrors (e : gmap string string) : M unit :=
  modify (with_formErrors e).

(** ** The store of [useForm] *)

(** [watch(name)] *)
Definition watch (name : string) : M (option string) :=
  gets (fun w => values (form w) !! name).

(** [setValue(name, value)] *)
Definition setValue (name value : string) : M unit :=
  modify (with_form (fun s =>
    {| values := <[name := value]> (values s);
       errors := errors s;
       isSubmitted := isSubmitted s |})).

(** [trigger(name)]: the resolver runs over the values, and the error of
    the field [name] is set to its first issue, or removed. *)
Definition trigger (name : string) : M unit :=
  modify (with_form (fun s =>
    {| values := values s;
       errors :=
         match onboardingFormSchema.fieldError name (values s) with
         | Some message => <[name := message]> (errors s)
         | None => delete name (errors s)
         end;
       isSubmitted := isSubmitted s |})).

(** The [onChange] that [register] gives an input: the value is stored,
    and, once a submission has been attempted ([reValidateMode] is
    [onChange]), the field is validated again. *)
Definition register_onChange (name value : string) : M unit :=
  setValue name value ;;
  submitted ← gets (fun w => isSubmitted (form w));
  if submitted : bool then trigger name else mret tt.

(** [handleSubmit(onValid)]: the resolver runs over the values; [onValid]
    is called with the parsed data when there is no issue, and otherwise the
    issues become [formState.errors]. In both cases the form is then
    marked as submitted. *)
Definition handleSubmit (onValid : OnboardingFormData.t -> M unit) : M unit :=
  input ← gets (fun w => values (form w));
  match onboardingFormSchema.safeParse input with
  | inl data =>
      modify (with_form (fun s =>
        {| values := values s; errors := ∅; isSubmitted := isSubmitted s |})) ;;
      onValid data
  | inr issues =>
      modify (with_form (fun s =>
        {| values := values s; errors := issues; isSubmitted := isSubmitted s |}))
  end ;;
  modify (with_form (fun s =>
    {| values := values s; errors := errors s; isSubmitted := true |})).

(** ** [services/api.ts] *)

Module ApiService.
Section WithNetwork.
Context (net : Network).

(** The response interceptor's error handler: the [AxiosError] is replaced
    by an object literal [{ message, status }], which is what the promise
    rejects with. (The interceptors also write to the console; the request
    interceptor returns the request as it is.) *)
Definition response_interceptor (error : AxiosError.t) : Thrown :=
  {| instanceofError := false;
     thrown :=
       {| ApiError.message :=
            Js.or_else (AxiosError.message error) "An unexpected error occurred";
          ApiError.status := AxiosError.response_status error |} |}.

(** [this.client.get(url)] *)
Definition client_get (url : string)
  : M (CorporationValidationResponse.t + Thrown) :=
  fun w =>
    (match get net url with
     | Fulfilled data => inl data
     | Rejected error => inr (response_interceptor error)
     end,
     with_request (GET url) w).

(** [this.client.post(url, body)] *)
Definition client_post (url : string) (body : OnboardingFormData.t)
  : M (unit + Thrown) :=
  fun w =>
    (match post net url body with
     | Fulfilled _ => inl tt
     | Rejected error => inr (response_interceptor error)
     end,
     with_request (POST url body) w).

Definition validateCorporationNumber (corporationNumber : string)
  : M (CorporationValidationResponse.t + Thrown) :=
  response ← client_get ("/corporation-number/" ++ corporationNumber);
  match response with
  | inl data => mret (inl data)
  | inr error =>
      (* Error 400 === not a corp number *)
      if instanceofError error
         && bool_decide (ApiError.status (thrown error) = Some 400%Z)
      then
        mret (inl {| CorporationValidationResponse.corporationNumber := corporationNumber;
                     CorporationValidationResponse.valid := false;
                     CorporationValidationResponse.message :=
                       Some (ApiError.message (thrown error)) |})
      else mret (inr error)
  end.

Definition submitProfileDetails (formData : OnboardingFormData.t)
  : M (unit + Thrown) :=
  client_post "/profile-details" formData.

End WithNetwork.
End ApiService.

(** ** [hooks/useCorporationValidation.ts] *)

Module useCorporationValidation.
Section WithNetwork.
Context (net : Network).

Definition validateCorporationNumber (corporationNumber : string)
  : M (option CorporationValidationResponse.t) :=
  if negb (Js.truthy corporationNumber)
     || negb (String.length corporationNumber =? 9)%nat
  then
    setValidationResult None ;;
    mret None
  else
    setIsValidating true ;;
    outcome ← ApiService.validateCorporationNumber net corporationNumber;
    returned ←
      match outcome with
      | inl result =>
          setValidationResult (Some result) ;;
          mret (Some result)
      | inr error =>
          let apiError := thrown error in
          let result :=
            {| CorporationValidationResponse.corporationNumber := corporationNumber;
               CorporationValidationResponse.valid := false;
               CorporationValidationResponse.message :=
                 Some (Js.or_else (ApiError.message apiError)
                         "Failed to validate corporation number") |} in
          setValidationResult (Some result) ;;
          mret (Some result)
      end;
    (* finally *)
    setIsValidating false ;;
    mret returned.

Definition clearValidation : M unit := setValidationResult None.

End WithNetwork.
End useCorporationValidation.

(** ** [hooks/useFormSubmission.ts] *)

Module useFormSubmission.

Record SubmitFormResult : Type := {
  success : bool;
  error : option string
}.

Section WithNetwork.
Context (net : Network).

Definition submitForm (formData : OnboardingFormData.t) : M SubmitFormResult :=
  setIsSubmitting true ;;
  setSubmitError None ;;
  setIsSuccess false ;;
  outcome ← ApiService.submitProfileDetails net formData;
  returned ←
    match outcome with
    | inl _ =>
        setIsSuccess true ;;
        mret {| success := true; error := None |}
    | inr error =>
        let apiError := thrown error in
        let errorMessage := Js.or_else (ApiError.message apiError) "Failed to submit form" in
        setSubmitError (Some errorMessage) ;;
        mret {| success := false; error := Some errorMessage |}
    end;
  (* finally *)
  setIsSubmitting false ;;
  mret returned.

Definition resetSubmission : M unit :=
  setSubmitError None ;;
  setIsSuccess false.

End WithNetwork.
End useFormSubmission.

(** ** [components/OnboardingForm.tsx] *)

(** [\D] *)
Definition non_digit (c : ascii) : bool := negb (Js.is_digit c).

Module OnboardingForm.
Section WithNetwork.
Context (net : Network).

Definition handleCorporationNumberBlur : M unit :=
  currentValue ← watch "corporationNumber";
  match currentValue with
  | Some currentValue =>
      if Js.truthy currentValue && (String.length currentValue =? 9)%nat then
        useCorporationValidation.validateCorporationNumber net currentValue ;;
        mret tt
      else mret tt
  | None => mret tt
  end.

Definition handlePhoneChange (target_value : string) : M unit :=
  let cleaned := cleanPhoneInput target_value in
  setValue "phone" cleaned ;;
  trigger "phone".

Definition handleCorporationNumberChange (target_value : string) : M unit :=
  let value := Js.remove_all non_digit target_value in
  if (String.length value <=? 9)%nat then
    setValue "corporationNumber" value ;;
    trigger "corporationNumber"
  else mret tt.

(** [onSubmit] is a callback of the render that created it: its
    [validationResult] is the record that render held, and stays that value
    for the whole call, whatever the hook stores meanwhile. The result of
    the first block tells whether it returned from [onSubmit]. *)
Definition onSubmit (validationResult : option CorporationValidationResponse.t)
  (data : OnboardingFormData.t) : M unit :=
  setFormErrors ∅ ;;
  useFormSubmission.resetSubmission ;;
  returned ←
    (if Js.truthy (OnboardingFormData.corporationNumber data)
        && match validationResult with
           | None => true
           | Some held =>
               negb (String.eqb (CorporationValidationResponse.corporationNumber held)
                       (OnboardingFormData.corporationNumber data))
           end
     then
       corpValidation ← useCorporationValidation.validateCorporationNumber net
                          (OnboardingFormData.corporationNumber data);
       match corpValidation with
       | Some corpValidation =>
           if negb (CorporationValidationResponse.valid corpValidation) then
             setFormErrors
               {[ "corporationNumber" :=
                    Js.opt_or_else (CorporationValidationResponse.message corpValidation)
                      "Invalid corporation number" ]} ;;
             mret true
           else mret false
       | None => mret false
       end
     else mret false);
  if returned : bool then mret tt
  else
    let submit : M unit :=
      result ← useFormSubmission.submitForm net data;
      if negb (useFormSubmission.success result) then
        setFormErrors
          {[ "submit" :=
               Js.opt_or_else (useFormSubmission.error result) "Failed to submit form" ]}
      else mret tt in
    match validationResult with
    | Some held =>
        if negb (CorporationValidationResponse.valid held) then
          setFormErrors
            {[ "corporationNumber" :=
                 Js.opt_or_else (CorporationValidationResponse.message held)
                   "Invalid corporation number" ]}
        else submit
    | None => submit
    end.

(** The form's [onSubmit={handleSubmit(onSubmit)}], with the [onSubmit] of
    the current render. *)
Definition form_onSubmit : M unit :=
  held ← gets (fun w => validationResult (corporationValidation w));
  handleSubmit (onSubmit held).

End WithNetwork.

(** The error shown under the corporation-number field. *)
Definition corporationNumberError (errors : gmap string string)
  (validationResult : option CorporationValidationResponse.t)
  (formErrors : gmap string string) : option string :=
  Js.opt_or
    (Js.opt_or
       (errors !! "corporationNumber")
       (match validationResult with
        | Some held =>
            if negb (CorporationValidationResponse.valid held)
            then CorporationValidationResponse.message held
            else None
        | None => None
        end))
    (formErrors !! "corporationNumber").

End OnboardingForm.

(** ** Vocabulary of the properties *)

Definition digit_or_plus (c : ascii) : bool := Js.is_digit c || Js.is_plus c.

(** An optional leading [+] followed by digits only. *)
Definition digits_after_optional_plus (s : string) : bool :=
  match s with
  | EmptyString => true
  | String c s' => digit_or_plus c && Js.all_chars Js.is_digit s'
  end.

(** A schema accepts a string when parsing it raises no issue. *)
Definition accepts (checks : list Zod.StringCheck) (s : string) : bool :=
  match Zod.safeParse checks (Some s) with
  | inl _ => true
  | inr _ => false
  end.

(** The stored corporation number, when there is one, has at most 9 code
    units, all of them digits. *)
Definition corporationNumber_stored_ok (w : World) : Prop :=
  match values (form w) !! "corporationNumber" with
  | Some v => (String.length v <= 9)%nat /\ Js.all_chars Js.is_digit v = true
  | None => True
  end.

(** A handler that leaves the store of [useForm] as it is. *)
Definition keeps_form {A : Type} (m : M A) : Prop :=
  forall w : World, form (m w).2 = form w.

(** A sequence of change events on the corporation-number input, each with
    the [e.target.value] it carries. *)
Fixpoint changeCorporationNumber (target_values : list string) : M unit :=
  match target_values with
  | [] => mret tt
  | v :: vs => OnboardingForm.handleCorporationNumberChange v ;; changeCorporationNumber vs
  end.

(** The path of the verification endpoint for a corporation number. *)
Definition corporationNumberUrl (corporationNumber : string) : string :=
  "/corporation-number/" ++ corporationNumber.

(** Gestures of the user on the form, and the handler each one runs. The
    two name inputs keep the [onChange] of [register]; the phone and
    corporation-number inputs have the handlers above. A gesture here runs
    its handler to its end, the answer of the service included: it is the
    gesture of a user who waits for a pending request before acting again.
    What the form does when a gesture comes while a request is in flight
    is not an execution of [gestures]. *)
Inductive Gesture : Type :=
| TypeFirstName (value : string)
| TypeLastName (value : string)
| TypePhone (value : string)
| TypeCorporationNumber (value : string)
| BlurCorporationNumber
| PressSubmit.

Definition gesture (net : Network) (g : Gesture) : M unit :=
  match g with
  | TypeFirstName value => register_onChange "firstName" value
  | TypeLastName value => register_onChange "lastName" value
  | TypePhone value => OnboardingForm.handlePhoneChange value
  | TypeCorporationNumber value => OnboardingForm.handleCorporationNumberChange value
  | BlurCorporationNumber => OnboardingForm.handleCorporationNumberBlur net
  | PressSubmit => OnboardingForm.form_onSubmit net
  end.

Fixpoint gestures (net : Network) (gs : list Gesture) : M unit :=
  match gs with
  | [] => mret tt
  | g :: gs' => gesture net g ;; gestures net gs'
  end.

(** The ten digits of a national number: area code and exchange start
    with a digit from 2 to 9. *)
Definition national_number_regex : string -> bool :=
  matches_classes
    ([is_2_to_9] ++ repeat Js.is_digit 2
       ++ [is_2_to_9] ++ repeat Js.is_digit 2 ++ repeat Js.is_digit 4).

(** A request the service is meant to receive: a verification of nine
    digits, or a profile whose fields satisfy the schema. *)
Definition request_well_formed (r : Request) : Prop :=
  match r with
  | GET url =>
      exists corporationNumber : string,
        url = corporationNumberUrl corporationNumber
        /\ nine_digits_regex corporationNumber = true
  | POST url body =>
      url = "/profile-details"
      /\ (String.length (OnboardingFormData.firstName body) <= 50)%nat
      /\ (String.length (OnboardingFormData.lastName body) <= 50)%nat
      /\ validatePhoneFormat (OnboardingFormData.phone body) = true
      /\ nine_digits_regex (OnboardingFormData.corporationNumber body) = true
  end.

(** What the resolver reports for one field of the stored values. *)
Definition corporationNumber_issue (s : string) : option string :=
  if (String.length s =? 0)%nat then Some "Corporation number is required"
  else if negb (String.length s =? 9)%nat
       then Some "Corporation number must be exactly 9 characters"
       else if Js.all_chars Js.is_digit s then None
            else Some "Corporation number must contain only digits".

Definition phone_issue (s : string) : option string :=
  if validatePhoneFormat s then None
  else if (String.length s =? 0)%nat then Some "Phone number is required"
       else Some "Phone number must be a valid Canadian number starting with +1 followed by 10 digits".

(** The three blocks of [onSubmit], named: the verification of a missing
    or stale record, which tells whether [onSubmit] returned; the call of
    the submission hook; and the test of the held record before it. *)
Definition onSubmit_verification (net : Network)
  (validationResult : option CorporationValidationResponse.t)
  (data : OnboardingFormData.t) : M bool :=
  if Js.truthy (OnboardingFormData.corporationNumber data)
     && match validationResult with
        | None => true
        | Some held =>
            negb (String.eqb (CorporationValidationResponse.corporationNumber held)
                    (OnboardingFormData.corporationNumber data))
        end
  then
    corpValidation ← useCorporationValidation.validateCorporationNumber net
                       (OnboardingFormData.corporationNumber data);
    match corpValidation with
    | Some corpValidation =>
        if negb (CorporationValidationResponse.valid corpValidation) then
          setFormErrors
            {[ "corporationNumber" :=
                 Js.opt_or_else (CorporationValidationResponse.message corpValidation)
                   "Invalid corporation number" ]} ;;
          mret true
        else mret false
    | None => mret false
    end
  else mret false.

Definition onSubmit_submission (net : Network) (data : OnboardingFormData.t) : M unit :=
  result ← useFormSubmission.submitForm net data;
  if negb (useFormSubmission.success result) then
    setFormErrors
      {[ "submit" :=
           Js.opt_or_else (useFormSubmission.error result) "Failed to submit form" ]}
  else mret tt.

Definition onSubmit_held_record (net : Network)
  (validationResult : option CorporationValidationResponse.t)
  (data : OnboardingFormData.t) : M unit :=
  match validationResult with
  | Some held =>
      if negb (CorporationValidationResponse.valid held) then
        setFormErrors
          {[ "corporationNumber" :=
               Js.opt_or_else (CorporationValidationResponse.message held)
                 "Invalid corporation number" ]}
      else onSubmit_submission net data
  | None => onSubmit_submission net data
  end.

(** The hooks are reasoned about through their run lemmas. *)
Arguments ApiService.validateCorporationNumber : simpl never.
Arguments useCorporationValidation.validateCorporationNumber : simpl never.
Arguments useFormSubmission.submitForm : simpl never.

(** * Properties *)

(** ** Strings *)

Lemma all_chars_remove_all_neg (cls : ascii -> bool) (s : string) :
  Js.all_chars cls (Js.remove_all (fun c => negb (cls c)) s) = true.
Proof.
  induction s as [|c s IH]; simpl; [done|].
  destruct (cls c) eqn:Hc; simpl; [by rewrite Hc|done].
Qed.

Lemma remove_all_neg_id (cls : ascii -> bool) (s : string) :
  Js.all_chars cls s = true -> Js.remove_all (fun c => negb (cls c)) s = s.
Proof.
  induction s as [|c s IH]; simpl; [done|].
  intros [Hc Hs]%andb_true_iff. rewrite Hc; simpl. by rewrite IH.
Qed.

Lemma all_chars_app (cls : ascii -> bool) (s t : string) :
  Js.all_chars cls (s ++ t) = Js.all_chars cls s && Js.all_chars cls t.
Proof.
  induction s as [|c s IH]; simpl; [done|]. by rewrite IH, andb_assoc.
Qed.

Lemma all_chars_substring0 (cls : ascii -> bool) (n : nat) (s : string) :
  Js.all_chars cls s = true -> Js.all_chars cls (Js.substring0 n s) = true.
Proof.
  unfold Js.substring0. revert n.
  induction s as [|c s IH]; intros [|n]; simpl; try done.
  intros [Hc Hs]%andb_true_iff. rewrite Hc; simpl. by apply IH.
Qed.

Lemma all_chars_remove_leading_plus (cls : ascii -> bool) (s : string) :
  Js.all_chars cls s = true -> Js.all_chars cls (Js.remove_leading_plus s) = true.
Proof.
  destruct s as [|c s]; simpl; [done|].
  destruct (Js.is_plus c); [|done]. by intros [_ Hs]%andb_true_iff.
Qed.

Lemma length_substring0 (n : nat) (s : string) :
  (String.length (Js.substring0 n s) <= n)%nat.
Proof.
  unfold Js.substring0. revert n.
  induction s as [|c s IH]; intros [|n]; simpl; try lia.
  specialize (IH n). lia.
Qed.

Lemma substring0_short (n : nat) (s : string) :
  (String.length s <= n)%nat -> Js.substring0 n s = s.
Proof.
  unfold Js.substring0. revert n.
  induction s as [|c s IH]; intros [|n]; simpl; try done; try lia.
  intros H. rewrite IH; [done|lia].
Qed.

Lemma startsWith_plus1_substring0 (n : nat) (s : string) :
  Js.startsWith s "+1" = true -> Js.startsWith (Js.substring0 (S (S n)) s) "+1" = true.
Proof.
  destruct s as [|a [|b s]]; simpl; try done.
Qed.

(** ** The phone normalizer *)

Lemma cleaned_digit_or_plus (input : string) :
  Js.all_chars digit_or_plus (Js.remove_all not_digit_or_plus input) = true.
Proof. apply (all_chars_remove_all_neg digit_or_plus). Qed.

(** The result is made of digits and [+] only. *)
Lemma cleanPhoneInput_chars (input : string) :
  Js.all_chars digit_or_plus (cleanPhoneInput input) = true.
Proof.
  unfold cleanPhoneInput.
  pose proof (cleaned_digit_or_plus input) as Hc.
  set (cleaned := Js.remove_all not_digit_or_plus input) in *.
  destruct (Js.startsWith cleaned "+1"); simpl negb; cbv iota.
  - by apply all_chars_substring0.
  - destruct (Js.startsWith cleaned "1").
    + by rewrite all_chars_app, Hc.
    + by rewrite all_chars_app, all_chars_remove_leading_plus.
Qed.

(** The result starts with [+1]. *)
Lemma cleanPhoneInput_startsWith (input : string) :
  Js.startsWith (cleanPhoneInput input) "+1" = true.
Proof.
  unfold cleanPhoneInput.
  set (cleaned := Js.remove_all not_digit_or_plus input).
  destruct (Js.startsWith cleaned "+1") eqn:H1; simpl negb; cbv iota.
  - by apply startsWith_plus1_substring0.
  - destruct (Js.startsWith cleaned "1") eqn:H2; [|done].
    destruct cleaned as [|c s]; [done|].
    simpl in H2 |- *. by rewrite H2.
Qed.

(** Normalizing a normalized value only truncates it to 12 code units. *)
Lemma cleanPhoneInput_twice (input : string) :
  cleanPhoneInput (cleanPhoneInput input) = Js.substring0 12 (cleanPhoneInput input).
Proof.
  unfold cleanPhoneInput at 1.
  rewrite (remove_all_neg_id digit_or_plus) by apply cleanPhoneInput_chars.
  by rewrite cleanPhoneInput_startsWith.
Qed.

(** So it is idempotent on the inputs whose normal form has at most 12
    code units, and always from the second application on. *)
Lemma cleanPhoneInput_idempotent_short (input : string) :
  (String.length (cleanPhoneInput input) <= 12)%nat ->
  cleanPhoneInput (cleanPhoneInput input) = cleanPhoneInput input.
Proof. intros H. rewrite cleanPhoneInput_twice. by apply substring0_short. Qed.

Lemma cleanPhoneInput_thrice (input : string) :
  cleanPhoneInput (cleanPhoneInput (cleanPhoneInput input))
  = cleanPhoneInput (cleanPhoneInput input).
Proof.
  apply cleanPhoneInput_idempotent_short.
  rewrite cleanPhoneInput_twice. apply length_substring0.
Qed.

Example cleanPhoneInput_examples :
  cleanPhoneInput "3062776103" = "+13062776103"
  /\ cleanPhoneInput "1-306-277-6103" = "+13062776103"
  /\ cleanPhoneInput "+1 306 277 6103" = "+13062776103"
  /\ cleanPhoneInput "+13062776103" = "+13062776103"
  /\ cleanPhoneInput "13062776103" = "+13062776103".
Proof. by repeat split. Qed.

(** C7. The claim: [cleanPhoneInput] is idempotent. The code is not: only
    the branch of an input that already starts with [+1] truncates to 12
    code units, so twelve digits with a leading [1] normalize to 13 code
    units, and normalizing that result again cuts it to 12. *)
Theorem cleanPhoneInput_not_idempotent :
  cleanPhoneInput "123456789012" = "+123456789012"
  /\ cleanPhoneInput (cleanPhoneInput "123456789012") = "+12345678901"
  /\ cleanPhoneInput (cleanPhoneInput "123456789012") <> cleanPhoneInput "123456789012".
Proof. by repeat split. Qed.

(** C8, as stated, fails: a [+] that is not leading is kept. The input
    [1+2] normalizes to [+1+2], which is not an optional [+] followed by
    digits. *)
Lemma cleanPhoneInput_keeps_inner_plus :
  cleanPhoneInput "1+2" = "+1+2"
  /\ digits_after_optional_plus (cleanPhoneInput "1+2") = false.
Proof. by split. Qed.

(** C8, amended. For every raw input the result is made of digits and [+]
    only (every other code unit is stripped; a [+] need not be leading to
    be kept) and starts with [+1]; when the stripped input already starts
    with [+1] the result is its first 12 code units; and the inputs [""],
    ["abc"], ["+"] and ["1"] all normalize to ["+1"]. *)
Theorem cleanPhoneInput_normal_form (raw : string) :
  let cleaned := Js.remove_all not_digit_or_plus raw in
  Js.all_chars digit_or_plus (cleanPhoneInput raw) = true
  /\ Js.startsWith (cleanPhoneInput raw) "+1" = true
  /\ (Js.startsWith cleaned "+1" = true ->
      cleanPhoneInput raw = Js.substring0 12 cleaned
      /\ (String.length (cleanPhoneInput raw) <= 12)%nat)
  /\ cleanPhoneInput "" = "+1"
  /\ cleanPhoneInput "abc" = "+1"
  /\ cleanPhoneInput "+" = "+1"
  /\ cleanPhoneInput "1" = "+1".
Proof.
  intros cleaned. split; [apply cleanPhoneInput_chars|].
  split; [apply cleanPhoneInput_startsWith|].
  split; [|by repeat split].
  intros H. unfold cleanPhoneInput. fold cleaned. rewrite H. simpl negb. cbv iota.
  split; [done|apply length_substring0].
Qed.

Lemma cleanPhoneInput_normal_form_witness :
  Js.startsWith (Js.remove_all not_digit_or_plus "+1 306 277 6103 99") "+1" = true
  /\ cleanPhoneInput "+1 306 277 6103 99" = "+13062776103"
  /\ (String.length (cleanPhoneInput "+1 306 277 6103 99") <= 12)%nat.
Proof.
  split; [reflexivity|].
  split.
  - reflexivity.
  - apply (cleanPhoneInput_normal_form "+1 306 277 6103 99"). reflexivity.
Defined.

(** ** The schema *)

Lemma trim_all_space (s : string) :
  Js.all_chars Js.is_space s = true -> Js.trim s = "".
Proof.
  unfold Js.trim. induction s as [|c s IH]; simpl; [done|].
  intros [Hc Hs]%andb_true_iff. rewrite Hc. by apply IH.
Qed.

(** [min(1)] and [max(50)] test the raw string; [trim], chained last, only
    changes the parsed value. *)
Lemma runChecks_name (required too_long : string) (s : string) :
  Zod.runChecks [Zod.min 1 required; Zod.max 50 too_long; Zod.trim] s
  = (((if (String.length s <? 1)%nat then [required] else [])
        ++ (if (50 <? String.length s)%nat then [too_long] else []))%list,
     Js.trim s).
Proof. simpl. by destruct (_ <? 1)%nat, (50 <? _)%nat. Qed.

Lemma accepts_name (required too_long : string) (s : string) :
  accepts [Zod.min 1 required; Zod.max 50 too_long; Zod.trim] s = true
  <-> (1 <= String.length s <= 50)%nat.
Proof.
  unfold accepts, Zod.safeParse. rewrite runChecks_name.
  destruct (Nat.ltb_spec (String.length s) 1) as [H1|H1],
           (Nat.ltb_spec 50 (String.length s)) as [H2|H2];
    simpl; split; (done || lia).
Qed.

Lemma safeParse_name (required too_long : string) (s : string) :
  (1 <= String.length s <= 50)%nat ->
  Zod.safeParse [Zod.min 1 required; Zod.max 50 too_long; Zod.trim] (Some s)
  = inl (Js.trim s).
Proof.
  intros [H1 H2]. unfold Zod.safeParse. rewrite runChecks_name.
  apply Nat.ltb_ge in H1, H2. by rewrite H1, H2.
Qed.

(** C9. The claim: a name made only of white space is rejected as empty.
    The code accepts it: [.trim()] is chained after
    [.min(1, ... is required)], so the rule the schema itself states is
    tested on the untrimmed value. A first name of three spaces passes,
    and the data handed to [onSubmit] has the empty string as first
    name. *)
Theorem schema_accepts_blank_name :
  Js.trim "   " = ""
  /\ Zod.safeParse onboardingFormSchema.firstName (Some "   ") = inl ""
  /\ Zod.safeParse onboardingFormSchema.lastName (Some "   ") = inl ""
  /\ onboardingFormSchema.safeParse
       (<["firstName" := "   "]> (<["lastName" := "Doe"]> (<["phone" := "+13062776103"]>
          (<["corporationNumber" := "123456789"]> ∅))))
     = inl (OnboardingFormData.mk "" "Doe" "+13062776103" "123456789").
Proof. by repeat split. Qed.

(** What the name rule does as written: it accepts exactly the values that
    have between 1 and 50 code units before trimming, and parses them as
    their trimmed form. *)
Lemma schema_name_rule (s : string) :
  (accepts onboardingFormSchema.firstName s = true <-> (1 <= String.length s <= 50)%nat)
  /\ (accepts onboardingFormSchema.lastName s = true <-> (1 <= String.length s <= 50)%nat)
  /\ ((1 <= String.length s <= 50)%nat ->
      Zod.safeParse onboardingFormSchema.firstName (Some s) = inl (Js.trim s)
      /\ Zod.safeParse onboardingFormSchema.lastName (Some s) = inl (Js.trim s))
  /\ ((1 <= String.length s <= 50)%nat -> Js.all_chars Js.is_space s = true ->
      Zod.safeParse onboardingFormSchema.firstName (Some s) = inl ""
      /\ Zod.safeParse onboardingFormSchema.lastName (Some s) = inl "").
Proof.
  unfold onboardingFormSchema.firstName, onboardingFormSchema.lastName.
  split; [apply accepts_name|]. split; [apply accepts_name|].
  split.
  - intros H. by rewrite !safeParse_name.
  - intros H Hs. rewrite !safeParse_name by done. by rewrite trim_all_space.
Qed.

Lemma schema_name_rule_witness :
  Zod.safeParse onboardingFormSchema.firstName (Some " John ") = inl "John"
  /\ Zod.safeParse onboardingFormSchema.lastName (Some " ") = inl "".
Proof.
  split.
  - apply (schema_name_rule " John "). simpl. lia.
  - apply (schema_name_rule " "); [simpl; lia|reflexivity].
Defined.

Example schema_phone_examples :
  map validatePhoneFormat
    ["+13062776103"; "3062776103"; "+2234567890"; "+1-306-277-6103";
     "+1 306 277 6103"; "+1000000000"; "+1100000000"]
  = [true; false; false; false; false; false; false].
Proof. reflexivity. Qed.

(** ** The corporation-number input *)

Lemma handleCorporationNumberChange_ignored (target_value : string) (w : World) :
  (9 < String.length (Js.remove_all non_digit target_value))%nat ->
  OnboardingForm.handleCorporationNumberChange target_value w = (tt, w).
Proof.
  intros H. unfold OnboardingForm.handleCorporationNumberChange.
  apply Nat.leb_gt in H. by rewrite H.
Qed.

Lemma handleCorporationNumberChange_stored (target_value : string) (w : World) :
  (String.length (Js.remove_all non_digit target_value) <= 9)%nat ->
  values (form (OnboardingForm.handleCorporationNumberChange target_value w).2)
    !! "corporationNumber"
  = Some (Js.remove_all non_digit target_value).
Proof.
  intros H. unfold OnboardingForm.handleCorporationNumberChange.
  apply Nat.leb_le in H. rewrite H. simpl. apply lookup_insert_eq.
Qed.

Lemma handleCorporationNumberChange_ok (target_value : string) (w : World) :
  corporationNumber_stored_ok w ->
  corporationNumber_stored_ok (OnboardingForm.handleCorporationNumberChange target_value w).2.
Proof.
  intros Hw.
  destruct (Nat.le_gt_cases (String.length (Js.remove_all non_digit target_value)) 9) as [H|H].
  - unfold corporationNumber_stored_ok.
    rewrite handleCorporationNumberChange_stored by done.
    split; [done|]. apply (all_chars_remove_all_neg Js.is_digit).
  - by rewrite handleCorporationNumberChange_ignored.
Qed.

Lemma changeCorporationNumber_ok (target_values : list string) (w : World) :
  corporationNumber_stored_ok w ->
  corporationNumber_stored_ok (changeCorporationNumber target_values w).2.
Proof.
  revert w. induction target_values as [|v vs IH]; intros w Hw; [done|].
  simpl. unfold mbind, M_bind. apply IH. by apply handleCorporationNumberChange_ok.
Qed.

Lemma mount_corporationNumber_ok : corporationNumber_stored_ok mount.
Proof.
  unfold corporationNumber_stored_ok.
  change (values (form mount) !! "corporationNumber") with (Some "").
  split; [simpl; lia|done].
Qed.

(** C10. A change event whose value, stripped of non-digits, has more than
    9 code units leaves the whole session unchanged, the stored value
    included; otherwise the stripped value is stored. So after any sequence
    of change events since the form was mounted, the stored corporation
    number has at most 9 code units, all digits. *)
Theorem corporationNumber_change_invariant :
  (forall (target_value : string) (w : World),
     (9 < String.length (Js.remove_all non_digit target_value))%nat ->
     OnboardingForm.handleCorporationNumberChange target_value w = (tt, w))
  /\ (forall (target_value : string) (w : World),
        (String.length (Js.remove_all non_digit target_value) <= 9)%nat ->
        values (form (OnboardingForm.handleCorporationNumberChange target_value w).2)
          !! "corporationNumber"
        = Some (Js.remove_all non_digit target_value))
  /\ (forall target_values : list string,
        corporationNumber_stored_ok (changeCorporationNumber target_values mount).2).
Proof.
  split; [apply handleCorporationNumberChange_ignored|].
  split; [apply handleCorporationNumberChange_stored|].
  intros vs. apply changeCorporationNumber_ok, mount_corporationNumber_ok.
Qed.

Lemma corporationNumber_change_invariant_witness :
  OnboardingForm.handleCorporationNumberChange "1234567890" mount = (tt, mount)
  /\ values (form (OnboardingForm.handleCorporationNumberChange "12-34" mount).2)
       !! "corporationNumber" = Some "1234"
  /\ corporationNumber_stored_ok
       (changeCorporationNumber ["12-34"; "1234567890"; "987 654 321"] mount).2.
Proof.
  pose proof corporationNumber_change_invariant as (Hignored & Hstored & Hinv).
  split; [|split].
  - apply (Hignored "1234567890"). simpl. lia.
  - apply (Hstored "12-34"). simpl. lia.
  - apply Hinv.
Defined.

(** ** The remote verifier and the submission hook *)

Lemma or_else_truthy (a b : string) :
  Js.truthy b = true -> Js.truthy (Js.or_else a b) = true.
Proof. unfold Js.or_else. by destruct (Js.truthy a) eqn:Ha. Qed.

Lemma or_else_left (a b : string) : Js.truthy a = true -> Js.or_else a b = a.
Proof. unfold Js.or_else. by intros ->. Qed.

(** The message of the object the interceptor rejects with is never empty:
    the fallbacks of the two hooks are not reached through the client. *)
Lemma response_interceptor_message (error : AxiosError.t) :
  let message := ApiError.message (thrown (ApiService.response_interceptor error)) in
  Js.truthy message = true
  /\ (Js.truthy (AxiosError.message error) = true -> message = AxiosError.message error)
  /\ (forall fallback, Js.or_else message fallback = message).
Proof.
  simpl. split; [by apply or_else_truthy|].
  split; [apply or_else_left|].
  intros fallback. apply or_else_left. by apply or_else_truthy.
Qed.

(** The guard of the hook, for a string of 9 code units. *)
Lemma guard_nine (corporationNumber : string) :
  String.length corporationNumber = 9%nat ->
  negb (Js.truthy corporationNumber) || negb (String.length corporationNumber =? 9)%nat
  = false.
Proof. intros H. rewrite H. by destruct corporationNumber. Qed.

Lemma guard_not_nine (corporationNumber : string) :
  String.length corporationNumber <> 9%nat ->
  negb (Js.truthy corporationNumber) || negb (String.length corporationNumber =? 9)%nat
  = true.
Proof.
  intros H. apply Nat.eqb_neq in H. rewrite H. apply orb_true_r.
Qed.

(** [apiService.validateCorporationNumber] rethrows every rejection of the
    client: what the interceptor rejects with is an object literal, not an
    [Error], so the branch for status 400 is not taken. *)
Lemma ApiService_validateCorporationNumber_run (net : Network)
  (corporationNumber : string) (w : World) :
  ApiService.validateCorporationNumber net corporationNumber w
  = (match get net (corporationNumberUrl corporationNumber) with
     | Fulfilled data => inl data
     | Rejected error => inr (ApiService.response_interceptor error)
     end,
     with_request (GET (corporationNumberUrl corporationNumber)) w).
Proof.
  unfold ApiService.validateCorporationNumber, ApiService.client_get, mbind, M_bind.
  fold (corporationNumberUrl corporationNumber). simpl.
  by destruct (get net _).
Qed.

(** The verdict the hook computes from the outcome of the request. *)
Lemma validateCorporationNumber_run (net : Network)
  (corporationNumber : string) (w : World) :
  String.length corporationNumber = 9%nat ->
  let verdict :=
    match get net (corporationNumberUrl corporationNumber) with
    | Fulfilled data => data
    | Rejected error =>
        {| CorporationValidationResponse.corporationNumber := corporationNumber;
           CorporationValidationResponse.valid := false;
           CorporationValidationResponse.message :=
             Some (ApiError.message (thrown (ApiService.response_interceptor error))) |}
    end in
  useCorporationValidation.validateCorporationNumber net corporationNumber w
  = (Some verdict,
     {| corporationValidation :=
          {| isValidating := false; validationResult := Some verdict |};
        formSubmission := formSubmission w;
        formErrors := formErrors w;
        form := form w;
        requests := requests w ++ [GET (corporationNumberUrl corporationNumber)] |}).
Proof.
  intros H verdict. unfold useCorporationValidation.validateCorporationNumber.
  rewrite guard_nine by done.
  unfold mbind, M_bind. rewrite !ApiService_validateCorporationNumber_run. simpl.
  subst verdict. destruct (get net _) as [data|error]; simpl; [done|].
  by rewrite (proj2 (proj2 (response_interceptor_message error))).
Qed.

(** C3, as stated, fails: when the service answers 400 with a body whose
    message is ["Invalid corporation number"], the verdict does not carry
    that message but the one of the transport error. The body of a
    response to a rejected request is read nowhere in the code. *)
Lemma validateCorporationNumber_not_authority_message :
  let error :=
    {| AxiosError.message := "Request failed with status code 400";
       AxiosError.response_status := Some 400%Z;
       AxiosError.response_data_message := Some "Invalid corporation number" |} in
  let net := {| get := fun _ => Rejected error; post := fun _ _ => Fulfilled tt |} in
  (useCorporationValidation.validateCorporationNumber net "123456789" mount).1
  = Some {| CorporationValidationResponse.corporationNumber := "123456789";
            CorporationValidationResponse.valid := false;
            CorporationValidationResponse.message :=
              Some "Request failed with status code 400" |}
  /\ Some "Request failed with status code 400"
     <> AxiosError.response_data_message error.
Proof. by split. Qed.

(** C3, amended. For every corporation number of 9 code units and every
    outcome of the request, the hook returns a verdict and holds it, and
    is no longer validating. A fulfilled request gives the authority's
    record as it is; a rejected one, whatever its status (400 included)
    and whatever the body of the response, gives an invalid verdict for
    that number whose message is the message of the transport error
    ([error.message], or ["An unexpected error occurred"] when that is
    empty), which is never empty. *)
Theorem validateCorporationNumber_always_verdict (net : Network)
  (corporationNumber : string) (w : World) :
  String.length corporationNumber = 9%nat ->
  let r := useCorporationValidation.validateCorporationNumber net corporationNumber w in
  exists verdict : CorporationValidationResponse.t,
    r.1 = Some verdict
    /\ validationResult (corporationValidation r.2) = Some verdict
    /\ isValidating (corporationValidation r.2) = false
    /\ match get net (corporationNumberUrl corporationNumber) with
       | Fulfilled data => verdict = data
       | Rejected error =>
           let message := ApiError.message (thrown (ApiService.response_interceptor error)) in
           verdict = {| CorporationValidationResponse.corporationNumber := corporationNumber;
                        CorporationValidationResponse.valid := false;
                        CorporationValidationResponse.message := Some message |}
           /\ message
              = Js.or_else (AxiosError.message error) "An unexpected error occurred"
           /\ Js.truthy message = true
           /\ (Js.truthy (AxiosError.message error) = true ->
               message = AxiosError.message error)
       end.
Proof.
  intros H r. subst r. rewrite validateCorporationNumber_run by done. simpl.
  eexists. do 3 (split; [reflexivity|]).
  destruct (get net _) as [data|error]; [done|].
  split; [done|]. split; [done|].
  pose proof (response_interceptor_message error) as (? & ? & _). done.
Qed.

Lemma validateCorporationNumber_always_verdict_witness :
  exists verdict : CorporationValidationResponse.t,
    (useCorporationValidation.validateCorporationNumber
       {| get := fun _ => Rejected {| AxiosError.message := "Request failed with status code 400";
                                      AxiosError.response_status := Some 400%Z;
                                      AxiosError.response_data_message :=
                                        Some "Invalid corporation number" |};
          post := fun _ _ => Fulfilled tt |}
       "123456789" mount).1 = Some verdict
    /\ CorporationValidationResponse.valid verdict = false
    /\ CorporationValidationResponse.message verdict
       = Some "Request failed with status code 400".
Proof.
  destruct (validateCorporationNumber_always_verdict
              {| get := fun _ => Rejected {| AxiosError.message := "Request failed with status code 400";
                                             AxiosError.response_status := Some 400%Z;
                                             AxiosError.response_data_message :=
                                               Some "Invalid corporation number" |};
                 post := fun _ _ => Fulfilled tt |}
              "123456789" mount eq_refl) as (verdict & Hr & _ & _ & Hv).
  exists verdict. split; [exact Hr|].
  simpl in Hv. destruct Hv as (-> & _). by split.
Defined.

(** C6, as stated, fails at the blur handler: with a stored value that is
    not 9 code units long it does not call the hook at all, so a held
    record stays held. *)
Lemma handleCorporationNumberBlur_keeps_record :
  let held :=
    {| CorporationValidationResponse.corporationNumber := "123456789";
       CorporationValidationResponse.valid := false;
       CorporationValidationResponse.message := Some "Not a registered corporation" |} in
  let net := {| get := fun _ => Fulfilled held; post := fun _ _ => Fulfilled tt |} in
  let w := (gestures net [TypeCorporationNumber "123456789"; BlurCorporationNumber;
                          TypeCorporationNumber "123"] mount).2 in
  values (form w) !! "corporationNumber" = Some "123"
  /\ validationResult (corporationValidation w) = Some held
  /\ validationResult
       (corporationValidation (OnboardingForm.handleCorporationNumberBlur net w).2)
     = Some held.
Proof. by repeat split. Qed.

(** The guard of the hook is on the length alone: 9 code units that are not
    digits are sent to the remote verifier. *)
Lemma validateCorporationNumber_nine_letters :
  let net := {| get := fun _ => Rejected {| AxiosError.message := "Network Error";
                                           AxiosError.response_status := None;
                                      AxiosError.response_data_message := None |};
                post := fun _ _ => Fulfilled tt |} in
  requests (useCorporationValidation.validateCorporationNumber net "abcdefghi" mount).2
  = [GET "/corporation-number/abcdefghi"].
Proof. reflexivity. Qed.

(** C6, amended. When the hook is called with a value whose length is not 9
    (the empty string included), the remote verifier is not invoked and the
    held record is cleared; nothing else changes. When the field is blurred
    with no stored value or one whose length is not 9, the hook is not
    called: no request is made and the session, the held record included,
    is unchanged. *)
Theorem validateCorporationNumber_not_nine (net : Network) (w : World) :
  (forall corporationNumber : string,
     String.length corporationNumber <> 9%nat ->
     useCorporationValidation.validateCorporationNumber net corporationNumber w
     = (None, with_corporationValidation
                (fun s => {| isValidating := isValidating s; validationResult := None |}) w))
  /\ ((forall v, values (form w) !! "corporationNumber" = Some v ->
                 String.length v <> 9%nat) ->
      OnboardingForm.handleCorporationNumberBlur net w = (tt, w)).
Proof.
  split.
  - intros corporationNumber H.
    unfold useCorporationValidation.validateCorporationNumber.
    by rewrite guard_not_nine.
  - intros H. unfold OnboardingForm.handleCorporationNumberBlur, watch, gets, mbind, M_bind.
    simpl. destruct (values (form w) !! "corporationNumber") as [v|] eqn:Hv; [|done].
    specialize (H v eq_refl). apply Nat.eqb_neq in H. rewrite H.
    by rewrite andb_false_r.
Qed.

Lemma validateCorporationNumber_not_nine_witness :
  let net := {| get := fun _ => Rejected {| AxiosError.message := "Network Error";
                                           AxiosError.response_status := None;
                                      AxiosError.response_data_message := None |};
                post := fun _ _ => Fulfilled tt |} in
  requests (useCorporationValidation.validateCorporationNumber net "123" mount).2 = []
  /\ validationResult
       (corporationValidation
          (useCorporationValidation.validateCorporationNumber net "123" mount).2) = None
  /\ OnboardingForm.handleCorporationNumberBlur net mount = (tt, mount).
Proof.
  intros net.
  destruct (validateCorporationNumber_not_nine net mount) as [Hhook Hblur].
  rewrite (Hhook "123") by (simpl; lia).
  split; [reflexivity|]. split; [reflexivity|].
  apply Hblur. intros v Hv. injection Hv as <-. discriminate.
Defined.

(** What [submitForm] returns and leaves, by the outcome of the request. *)
Lemma submitForm_run (net : Network) (formData : OnboardingFormData.t) (w : World) :
  useFormSubmission.submitForm net formData w
  = match post net "/profile-details" formData with
    | Fulfilled _ =>
        ({| useFormSubmission.success := true; useFormSubmission.error := None |},
         {| corporationValidation := corporationValidation w;
            formSubmission :=
              {| isSubmitting := false; submitError := None; isSuccess := true |};
            formErrors := formErrors w;
            form := form w;
            requests := requests w ++ [POST "/profile-details" formData] |})
    | Rejected error =>
        let message := ApiError.message (thrown (ApiService.response_interceptor error)) in
        ({| useFormSubmission.success := false; useFormSubmission.error := Some message |},
         {| corporationValidation := corporationValidation w;
            formSubmission :=
              {| isSubmitting := false; submitError := Some message; isSuccess := false |};
            formErrors := formErrors w;
            form := form w;
            requests := requests w ++ [POST "/profile-details" formData] |})
    end.
Proof.
  unfold useFormSubmission.submitForm, ApiService.submitProfileDetails,
    ApiService.client_post, mbind, M_bind. simpl.
  destruct (post net _ _) as [[]|error]; simpl; [done|].
  by rewrite (proj2 (proj2 (response_interceptor_message error))).
Qed.

(** C4. For every form input, every prior state and every outcome of the
    submission endpoint: after [submitForm], [isSubmitting] is false; when
    the endpoint succeeds [isSuccess] is true and [submitError] is null;
    when it fails, [submitError] is the message of the failure (the message
    of the error the client rejects with) and [isSuccess] is false. *)
Theorem submitForm_outcome (net : Network) (formData : OnboardingFormData.t) (w : World) :
  let after := formSubmission (useFormSubmission.submitForm net formData w).2 in
  isSubmitting after = false
  /\ match post net "/profile-details" formData with
     | Fulfilled _ => isSuccess after = true /\ submitError after = None
     | Rejected error =>
         let message := ApiError.message (thrown (ApiService.response_interceptor error)) in
         submitError after = Some message
         /\ isSuccess after = false
         /\ Js.truthy message = true
         /\ (Js.truthy (AxiosError.message error) = true ->
             message = AxiosError.message error)
     end.
Proof.
  intros after. subst after. rewrite submitForm_run.
  destruct (post net _ _) as [[]|error]; simpl; [done|].
  pose proof (response_interceptor_message error) as (? & ? & _). done.
Qed.

Lemma submitForm_outcome_witness :
  let net := {| get := fun _ => Rejected {| AxiosError.message := "Network Error";
                                           AxiosError.response_status := None;
                                      AxiosError.response_data_message := None |};
                post := fun _ _ => Rejected {| AxiosError.message := "Invalid phone number";
                                               AxiosError.response_status := Some 400%Z;
                                      AxiosError.response_data_message := None |} |} in
  let formData := OnboardingFormData.mk "John" "Doe" "+13062776103" "123456789" in
  let prior := with_formSubmission
                 (fun _ => {| isSubmitting := false; submitError := None; isSuccess := true |})
                 mount in
  let after := formSubmission (useFormSubmission.submitForm net formData prior).2 in
  isSubmitting after = false
  /\ submitError after = Some "Invalid phone number"
  /\ isSuccess after = false.
Proof.
  intros net formData prior after.
  destruct (submitForm_outcome net formData prior) as (Hs & He & Hok & _).
  split; [exact Hs|]. split; [exact He|exact Hok].
Defined.

(** ** The error shown for the corporation-number field *)

Lemma opt_or_truthy (m : string) (b : option string) :
  Js.truthy m = true -> Js.opt_or (Some m) b = Some m.
Proof. simpl. by intros ->. Qed.

Lemma opt_or_falsy (a b : option string) :
  (forall m, a = Some m -> Js.truthy m = false) -> Js.opt_or a b = b.
Proof. destruct a as [m|]; simpl; [|done]. intros H. by rewrite (H m eq_refl). Qed.

(** C5. The error shown for the corporation-number field is one optional
    message, chosen by precedence: the schema error when there is one;
    else the message of the held record when that record is invalid and
    has a message; else the error recorded by [onSubmit], if any. *)
Theorem corporationNumberError_precedence (errors : gmap string string)
  (validationResult : option CorporationValidationResponse.t)
  (formErrors : gmap string string) :
  let shown := OnboardingForm.corporationNumberError errors validationResult formErrors in
  let no_schema_error :=
    forall m, errors !! "corporationNumber" = Some m -> Js.truthy m = false in
  let no_record_message :=
    forall held m, validationResult = Some held ->
      CorporationValidationResponse.valid held = false ->
      CorporationValidationResponse.message held = Some m -> Js.truthy m = false in
  (forall m, errors !! "corporationNumber" = Some m -> Js.truthy m = true ->
             shown = Some m)
  /\ (forall held m, no_schema_error -> validationResult = Some held ->
        CorporationValidationResponse.valid held = false ->
        CorporationValidationResponse.message held = Some m -> Js.truthy m = true ->
        shown = Some m)
  /\ (no_schema_error -> no_record_message ->
      shown = formErrors !! "corporationNumber").
Proof.
  intros shown no_schema_error no_record_message. subst shown.
  unfold OnboardingForm.corporationNumberError.
  split; [|split].
  - intros m He Hm. rewrite He. by rewrite !opt_or_truthy.
  - intros held m Hno -> Hinvalid Hmsg Hm. rewrite Hinvalid, Hmsg. simpl negb. cbv iota.
    rewrite (opt_or_falsy (errors !! "corporationNumber")) by exact Hno.
    by rewrite opt_or_truthy.
  - intros Hno Hnr.
    rewrite (opt_or_falsy (errors !! "corporationNumber")) by exact Hno.
    apply opt_or_falsy. intros m Hm.
    destruct validationResult as [held|]; [|done].
    destruct (CorporationValidationResponse.valid held) eqn:Hv; [done|].
    by apply (Hnr held m).
Qed.

Lemma corporationNumberError_precedence_witness :
  let held :=
    {| CorporationValidationResponse.corporationNumber := "123456789";
       CorporationValidationResponse.valid := false;
       CorporationValidationResponse.message := Some "Not a registered corporation" |} in
  OnboardingForm.corporationNumberError
    {[ "corporationNumber" := "Corporation number must be exactly 9 characters" ]}
    (Some held) {[ "corporationNumber" := "Invalid corporation number" ]}
  = Some "Corporation number must be exactly 9 characters"
  /\ OnboardingForm.corporationNumberError ∅ (Some held)
       {[ "corporationNumber" := "Invalid corporation number" ]}
     = Some "Not a registered corporation"
  /\ OnboardingForm.corporationNumberError ∅ None
       {[ "corporationNumber" := "Invalid corporation number" ]}
     = Some "Invalid corporation number".
Proof.
  intros held. split; [|split].
  - destruct (corporationNumberError_precedence
                {[ "corporationNumber" := "Corporation number must be exactly 9 characters" ]}
                (Some held) {[ "corporationNumber" := "Invalid corporation number" ]})
      as (Hschema & _ & _).
    apply Hschema; reflexivity.
  - destruct (corporationNumberError_precedence ∅ (Some held)
                {[ "corporationNumber" := "Invalid corporation number" ]})
      as (_ & Hrecord & _).
    apply (Hrecord held); try reflexivity.
    intros m Hm. discriminate Hm.
  - destruct (corporationNumberError_precedence ∅ None
                {[ "corporationNumber" := "Invalid corporation number" ]})
      as (_ & _ & Hadhoc).
    apply Hadhoc.
    + intros m Hm. discriminate Hm.
    + intros r m Hr. discriminate Hr.
Defined.

(** ** Submission *)

Lemma truthy_nine (s : string) : String.length s = 9%nat -> Js.truthy s = true.
Proof. by destruct s. Qed.

(** The test of [onSubmit] for a record that is missing or is for another
    number. *)
Lemma stale_test (held : option CorporationValidationResponse.t) (corporationNumber : string) :
  (forall r, held = Some r ->
             CorporationValidationResponse.corporationNumber r <> corporationNumber) ->
  match held with
  | None => true
  | Some r =>
      negb (String.eqb (CorporationValidationResponse.corporationNumber r) corporationNumber)
  end = true.
Proof.
  intros H. destruct held as [r|]; [|done].
  apply negb_true_iff, String.eqb_neq. by apply H.
Qed.

(** [onSubmit] with a corporation number of 9 code units, while no record
    is held or the held record is for another number: one verification
    request, before any request to the submission endpoint. *)
Lemma onSubmit_verifies_first (net : Network)
  (held : option CorporationValidationResponse.t) (data : OnboardingFormData.t)
  (w : World) :
  let corporationNumber := OnboardingFormData.corporationNumber data in
  String.length corporationNumber = 9%nat ->
  (forall r, held = Some r ->
             CorporationValidationResponse.corporationNumber r <> corporationNumber) ->
  let after := (OnboardingForm.onSubmit net held data w).2 in
  exists (verdict : CorporationValidationResponse.t) (later : list Request),
    (useCorporationValidation.validateCorporationNumber net corporationNumber w).1
    = Some verdict
    /\ validationResult (corporationValidation after) = Some verdict
    /\ requests after
       = (requests w ++ GET (corporationNumberUrl corporationNumber) :: later)%list
    /\ (later = [] \/ later = [POST "/profile-details" data])
    /\ (CorporationValidationResponse.valid verdict = false ->
        later = []
        /\ formErrors after
           = {[ "corporationNumber" :=
                  Js.opt_or_else (CorporationValidationResponse.message verdict)
                    "Invalid corporation number" ]}).
Proof.
  intros corporationNumber Hlen Hstale after. subst after.
  unfold OnboardingForm.onSubmit, mbind, M_bind.
  fold corporationNumber.
  rewrite truthy_nine, stale_test by done. cbn.
  rewrite !validateCorporationNumber_run by done. cbn.
  set (verdict := match get net (corporationNumberUrl corporationNumber) with
                  | Fulfilled data0 => data0
                  | Rejected error => _
                  end).
  exists verdict.
  destruct (CorporationValidationResponse.valid verdict) eqn:Hvalid; cbn.
  - destruct held as [r|].
    + destruct (CorporationValidationResponse.valid r); cbn.
      * rewrite !submitForm_run.
        exists [POST "/profile-details" data].
        destruct (post net _ _) as [[]|error]; cbn;
          by rewrite <- app_assoc; repeat split; auto.
      * exists []. by repeat split; auto.
    + rewrite !submitForm_run.
      exists [POST "/profile-details" data].
      destruct (post net _ _) as [[]|error]; cbn;
        by rewrite <- app_assoc; repeat split; auto.
  - exists []. by repeat split; auto.
Qed.

(** C2. The claim: when the verification made during [onSubmit] returns a
    valid verdict, the submission endpoint is called. The code does not do
    so when the record held at the start is for another number and is
    invalid: the test that follows the verification reads that old record,
    records its message as the corporationNumber error and returns. *)
Theorem onSubmit_stale_invalid_record_blocks (net : Network)
  (held verdict : CorporationValidationResponse.t) (data : OnboardingFormData.t)
  (w : World) :
  let corporationNumber := OnboardingFormData.corporationNumber data in
  String.length corporationNumber = 9%nat ->
  CorporationValidationResponse.corporationNumber held <> corporationNumber ->
  CorporationValidationResponse.valid held = false ->
  get net (corporationNumberUrl corporationNumber) = Fulfilled verdict ->
  CorporationValidationResponse.valid verdict = true ->
  let after := (OnboardingForm.onSubmit net (Some held) data w).2 in
  requests after = (requests w ++ [GET (corporationNumberUrl corporationNumber)])%list
  /\ validationResult (corporationValidation after) = Some verdict
  /\ isSuccess (formSubmission after) = false
  /\ formErrors after
     = {[ "corporationNumber" :=
            Js.opt_or_else (CorporationValidationResponse.message held)
              "Invalid corporation number" ]}.
Proof.
  intros corporationNumber Hlen Hstale Hheld Hget Hvalid after. subst after.
  unfold OnboardingForm.onSubmit, mbind, M_bind.
  fold corporationNumber.
  rewrite truthy_nine by done.
  rewrite (stale_test (Some held) corporationNumber) by (by intros r [= <-]). cbn.
  rewrite !validateCorporationNumber_run by done. rewrite Hget. cbn.
  rewrite Hvalid, Hheld. by cbn.
Qed.

Lemma onSubmit_stale_invalid_record_blocks_witness :
  let held :=
    {| CorporationValidationResponse.corporationNumber := "111111111";
       CorporationValidationResponse.valid := false;
       CorporationValidationResponse.message := Some "Not a registered corporation" |} in
  let verdict :=
    {| CorporationValidationResponse.corporationNumber := "123456789";
       CorporationValidationResponse.valid := true;
       CorporationValidationResponse.message := None |} in
  let net := {| get := fun _ => Fulfilled verdict; post := fun _ _ => Fulfilled tt |} in
  let data := OnboardingFormData.mk "John" "Doe" "+13062776103" "123456789" in
  let after := (OnboardingForm.onSubmit net (Some held) data mount).2 in
  requests after = [GET "/corporation-number/123456789"]
  /\ validationResult (corporationValidation after) = Some verdict
  /\ isSuccess (formSubmission after) = false
  /\ formErrors after = {[ "corporationNumber" := "Not a registered corporation" ]}.
Proof.
  intros held verdict net data after.
  apply (onSubmit_stale_invalid_record_blocks net held verdict data mount);
    [reflexivity|discriminate|reflexivity|reflexivity|reflexivity].
Defined.

(** What does hold of C2: with no invalid record held, a valid verdict of
    the verification made during [onSubmit] is followed by the submission
    request, with the whole form data. *)
Lemma onSubmit_fresh_valid_submits (net : Network)
  (held : option CorporationValidationResponse.t)
  (verdict : CorporationValidationResponse.t) (data : OnboardingFormData.t) (w : World) :
  let corporationNumber := OnboardingFormData.corporationNumber data in
  String.length corporationNumber = 9%nat ->
  (forall r, held = Some r ->
             CorporationValidationResponse.corporationNumber r <> corporationNumber
             /\ CorporationValidationResponse.valid r = true) ->
  get net (corporationNumberUrl corporationNumber) = Fulfilled verdict ->
  CorporationValidationResponse.valid verdict = true ->
  requests (OnboardingForm.onSubmit net held data w).2
  = (requests w ++ [GET (corporationNumberUrl corporationNumber);
                    POST "/profile-details" data])%list.
Proof.
  intros corporationNumber Hlen Hheld Hget Hvalid.
  unfold OnboardingForm.onSubmit, mbind, M_bind.
  fold corporationNumber.
  rewrite truthy_nine by done.
  rewrite stale_test by (intros r Hr; by apply Hheld). cbn.
  rewrite !validateCorporationNumber_run by done. rewrite Hget. cbn.
  rewrite Hvalid. cbn.
  destruct held as [r|].
  - destruct (Hheld r eq_refl) as [_ ->]. cbn. rewrite !submitForm_run.
    destruct (post net _ _) as [[]|error]; cbn; by rewrite <- app_assoc.
  - rewrite !submitForm_run.
    destruct (post net _ _) as [[]|error]; cbn; by rewrite <- app_assoc.
Qed.

(** A held record for the same number that is valid: the submission
    request is the only request. *)
Lemma onSubmit_matching_valid_submits (net : Network)
  (held : CorporationValidationResponse.t) (data : OnboardingFormData.t) (w : World) :
  CorporationValidationResponse.corporationNumber held
  = OnboardingFormData.corporationNumber data ->
  CorporationValidationResponse.valid held = true ->
  requests (OnboardingForm.onSubmit net (Some held) data w).2
  = (requests w ++ [POST "/profile-details" data])%list.
Proof.
  intros Hsame Hvalid.
  unfold OnboardingForm.onSubmit, mbind, M_bind.
  rewrite Hsame, String.eqb_refl, andb_false_r, Hvalid. cbn.
  rewrite !submitForm_run.
  by destruct (post net _ _) as [[]|error].
Qed.

(** A held record for the same number that is invalid: no request is made,
    and its message is the corporationNumber error. *)
Lemma onSubmit_matching_invalid_blocks (net : Network)
  (held : CorporationValidationResponse.t) (data : OnboardingFormData.t) (w : World) :
  CorporationValidationResponse.corporationNumber held
  = OnboardingFormData.corporationNumber data ->
  CorporationValidationResponse.valid held = false ->
  requests (OnboardingForm.onSubmit net (Some held) data w).2 = requests w
  /\ formErrors (OnboardingForm.onSubmit net (Some held) data w).2
     = {[ "corporationNumber" :=
            Js.opt_or_else (CorporationValidationResponse.message held)
              "Invalid corporation number" ]}.
Proof.
  intros Hsame Hvalid.
  unfold OnboardingForm.onSubmit, mbind, M_bind.
  rewrite Hsame, String.eqb_refl, andb_false_r, Hvalid. by cbn.
Qed.

(** The end-to-end scenarios of the form, from its mount. *)
Example end_to_end_success :
  let verdict :=
    {| CorporationValidationResponse.corporationNumber := "123456789";
       CorporationValidationResponse.valid := true;
       CorporationValidationResponse.message := None |} in
  let net := {| get := fun _ => Fulfilled verdict; post := fun _ _ => Fulfilled tt |} in
  let data := OnboardingFormData.mk "John" "Doe" "+13062776103" "123456789" in
  let after :=
    (gestures net [TypeFirstName "John"; TypeLastName "Doe"; TypePhone "3062776103";
                   TypeCorporationNumber "123456789"; BlurCorporationNumber;
                   PressSubmit] mount).2 in
  formSubmission after = {| isSubmitting := false; submitError := None; isSuccess := true |}
  /\ formErrors after = ∅
  /\ errors (form after) = ∅
  /\ requests after = [GET "/corporation-number/123456789"; POST "/profile-details" data].
Proof. by repeat split. Qed.

(** The same without leaving the field first: the verification is made by
    [onSubmit]. *)
Example end_to_end_success_without_blur :
  let verdict :=
    {| CorporationValidationResponse.corporationNumber := "123456789";
       CorporationValidationResponse.valid := true;
       CorporationValidationResponse.message := None |} in
  let net := {| get := fun _ => Fulfilled verdict; post := fun _ _ => Fulfilled tt |} in
  let data := OnboardingFormData.mk "John" "Doe" "+13062776103" "123456789" in
  let after :=
    (gestures net [TypeFirstName "John"; TypeLastName "Doe"; TypePhone "3062776103";
                   TypeCorporationNumber "123456789"; PressSubmit] mount).2 in
  formSubmission after = {| isSubmitting := false; submitError := None; isSuccess := true |}
  /\ formErrors after = ∅
  /\ errors (form after) = ∅
  /\ requests after = [GET "/corporation-number/123456789"; POST "/profile-details" data].
Proof. by repeat split. Qed.

Example end_to_end_rejected :
  let verdict :=
    {| CorporationValidationResponse.corporationNumber := "123456789";
       CorporationValidationResponse.valid := false;
       CorporationValidationResponse.message := Some "Not a registered corporation" |} in
  let net := {| get := fun _ => Fulfilled verdict; post := fun _ _ => Fulfilled tt |} in
  let after :=
    (gestures net [TypeFirstName "John"; TypeLastName "Doe"; TypePhone "3062776103";
                   TypeCorporationNumber "123456789"; PressSubmit] mount).2 in
  isSuccess (formSubmission after) = false
  /\ formErrors after = {[ "corporationNumber" := "Not a registered corporation" ]}
  /\ OnboardingForm.corporationNumberError (errors (form after))
       (validationResult (corporationValidation after)) (formErrors after)
     = Some "Not a registered corporation"
  /\ requests after = [GET "/corporation-number/123456789"].
Proof. by repeat split. Qed.

(** ** Frame: what the handlers leave alone *)

Lemma keeps_form_ret {A : Type} (x : A) : keeps_form (mret x).
Proof. by intros w. Qed.

Lemma keeps_form_bind {A B : Type} (m : M A) (f : A -> M B) :
  keeps_form m -> (forall a, keeps_form (f a)) -> keeps_form (m ≫= f).
Proof.
  intros Hm Hf w. unfold mbind, M_bind. by rewrite Hf, Hm.
Qed.

Lemma keeps_form_setFormErrors (e : gmap string string) : keeps_form (setFormErrors e).
Proof. by intros w. Qed.

Lemma keeps_form_resetSubmission : keeps_form useFormSubmission.resetSubmission.
Proof. by intros w. Qed.

Lemma keeps_form_validateCorporationNumber (net : Network) (corporationNumber : string) :
  keeps_form (useCorporationValidation.validateCorporationNumber net corporationNumber).
Proof.
  intros w. unfold useCorporationValidation.validateCorporationNumber.
  destruct (negb _ || negb _); [done|].
  unfold mbind, M_bind. rewrite !ApiService_validateCorporationNumber_run. cbn.
  by destruct (get net _).
Qed.

Lemma keeps_form_submitForm (net : Network) (formData : OnboardingFormData.t) :
  keeps_form (useFormSubmission.submitForm net formData).
Proof. intros w. rewrite submitForm_run. by destruct (post net _ _). Qed.

Create HintDb frame.

#[local] Hint Resolve keeps_form_ret keeps_form_setFormErrors keeps_form_resetSubmission
  keeps_form_validateCorporationNumber keeps_form_submitForm : frame.

(** Splits a handler along its binds and branches. *)
Ltac keeps_form_step :=
  match goal with
  | |- keeps_form (_ ≫= _) => apply keeps_form_bind; [|intros ?]
  | |- keeps_form (if ?b then _ else _) => destruct b
  | |- keeps_form (match ?x with Some _ => _ | None => _ end) => destruct x
  | |- keeps_form _ => solve [auto with frame]
  end.

Lemma keeps_form_onSubmit (net : Network)
  (held : option CorporationValidationResponse.t) (data : OnboardingFormData.t) :
  keeps_form (OnboardingForm.onSubmit net held data).
Proof. unfold OnboardingForm.onSubmit. repeat keeps_form_step. Qed.

(** * Further properties of the code *)

(** ** Character classes and patterns *)

Lemma is_2_to_9_digit (c : ascii) : is_2_to_9 c = true -> Js.is_digit c = true.
Proof.
  unfold is_2_to_9, Js.is_digit. cbv zeta.
  intros [H1 H2]%andb_true_iff. apply Nat.leb_le in H1.
  apply andb_true_iff. split; [apply Nat.leb_le; lia|done].
Qed.

Lemma is_digit_not_plus (c : ascii) : Js.is_digit c = true -> Js.is_plus c = false.
Proof.
  unfold Js.is_plus. destruct (Ascii.eqb_spec c "+") as [->|]; [|done]. by cbv.
Qed.

Lemma is_digit_not_space (c : ascii) : Js.is_digit c = true -> Js.is_space c = false.
Proof.
  unfold Js.is_digit, Js.is_space. cbv zeta.
  intros [H1 H2]%andb_true_iff. apply Nat.leb_le in H1, H2.
  apply orb_false_iff. split; [apply orb_false_iff; split|].
  - apply andb_false_iff. right. apply Nat.leb_gt. lia.
  - apply Nat.eqb_neq. lia.
  - apply Nat.eqb_neq. lia.
Qed.

Lemma digit_or_plus_not_space (c : ascii) :
  digit_or_plus c = true -> Js.is_space c = false.
Proof.
  unfold digit_or_plus. intros [H|H]%orb_true_iff.
  - by apply is_digit_not_space.
  - unfold Js.is_plus in H. apply Ascii.eqb_eq in H. by subst c.
Qed.

Lemma all_chars_impl (P Q : ascii -> bool) (s : string) :
  (forall c, P c = true -> Q c = true) ->
  Js.all_chars P s = true -> Js.all_chars Q s = true.
Proof.
  intros HPQ. induction s as [|c s IH]; simpl; [done|].
  intros [Hc Hs]%andb_true_iff. by rewrite (HPQ c Hc), IH.
Qed.

(** A string with no white space is its own trimmed form. *)
Lemma trim_no_space (s : string) :
  Js.all_chars (fun c => negb (Js.is_space c)) s = true -> Js.trim s = s.
Proof.
  unfold Js.trim. intros H.
  assert (Js.trimStart s = s) as ->.
  { destruct s as [|c s]; simpl in *; [done|].
    apply andb_true_iff in H as [Hc _]. apply negb_true_iff in Hc. by rewrite Hc. }
  induction s as [|c s IH]; simpl in *; [done|].
  apply andb_true_iff in H as [Hc Hs]. apply negb_true_iff in Hc.
  rewrite (IH Hs), Hc. by destruct s.
Qed.

Lemma length_trimStart (s : string) :
  (String.length (Js.trimStart s) <= String.length s)%nat.
Proof.
  induction s as [|c s IH]; simpl; [done|].
  destruct (Js.is_space c); simpl; lia.
Qed.

Lemma length_trimEnd (s : string) :
  (String.length (Js.trimEnd s) <= String.length s)%nat.
Proof.
  induction s as [|c s IH]; simpl; [done|].
  destruct (Js.trimEnd s) as [|d t]; simpl in *; [destruct (Js.is_space c); simpl|]; lia.
Qed.

Lemma length_trim (s : string) : (String.length (Js.trim s) <= String.length s)%nat.
Proof.
  unfold Js.trim. etransitivity; [apply length_trimEnd|apply length_trimStart].
Qed.

(** A pattern of classes fixes the length, and bounds every code unit by
    any class that contains them all. *)
Lemma matches_classes_length (classes : list (ascii -> bool)) (s : string) :
  matches_classes classes s = true -> String.length s = List.length classes.
Proof.
  revert s. induction classes as [|cls classes IH]; intros [|c s]; simpl; try done.
  intros [_ H]%andb_true_iff. by rewrite (IH s H).
Qed.

Lemma matches_classes_all_chars (P : ascii -> bool) (classes : list (ascii -> bool))
  (s : string) :
  Forall (fun cls => forall c, cls c = true -> P c = true) classes ->
  matches_classes classes s = true -> Js.all_chars P s = true.
Proof.
  intros HP. revert s.
  induction HP as [|cls classes Hcls _ IH]; intros [|c s]; simpl; try done.
  intros [Hc Hs]%andb_true_iff. by rewrite (Hcls c Hc), IH.
Qed.

Lemma matches_classes_repeat (cls : ascii -> bool) (n : nat) (s : string) :
  matches_classes (repeat cls n) s
  = (String.length s =? n)%nat && Js.all_chars cls s.
Proof.
  revert s. induction n as [|n IH]; intros [|c s]; simpl; try done.
  rewrite IH. by destruct (cls c), (String.length s =? n)%nat.
Qed.

Lemma canadianPhoneRegex_chars (phone : string) :
  canadianPhoneRegex phone = true -> Js.all_chars digit_or_plus phone = true.
Proof.
  apply matches_classes_all_chars. simpl.
  repeat (apply List.Forall_cons;
          [intros c Hc; unfold digit_or_plus;
           first [ by rewrite Hc
                 | by rewrite (is_2_to_9_digit c Hc)
                 | apply Ascii.eqb_eq in Hc; by subst c ]|]).
  apply List.Forall_nil.
Qed.

Lemma canadianPhoneRegex_startsWith (phone : string) :
  canadianPhoneRegex phone = true -> Js.startsWith phone "+1" = true.
Proof.
  destruct phone as [|a [|b s]]; unfold canadianPhoneRegex; simpl; try done.
  unfold is_char. intros H.
  apply andb_true_iff in H as [Ha H]. apply andb_true_iff in H as [Hb _].
  by rewrite Ha, Hb.
Qed.

Lemma canadianPhoneRegex_trim (phone : string) :
  canadianPhoneRegex phone = true -> Js.trim phone = phone.
Proof.
  intros H. apply trim_no_space.
  apply (all_chars_impl digit_or_plus); [|by apply canadianPhoneRegex_chars].
  intros c Hc. by rewrite digit_or_plus_not_space.
Qed.

(** The pattern after its prefix [+1] is the pattern of a national number. *)
Lemma canadianPhoneRegex_national (national : string) :
  canadianPhoneRegex ("+1" ++ national) = national_number_regex national.
Proof. reflexivity. Qed.

Lemma national_number_first (national : string) :
  national_number_regex national = true ->
  Js.startsWith national "+1" = false
  /\ Js.startsWith national "1" = false
  /\ Js.remove_leading_plus national = national.
Proof.
  destruct national as [|a s]; [done|].
  unfold national_number_regex. simpl.
  intros [Ha _]%andb_true_iff.
  assert (Js.is_plus a = false) as Hplus
    by (by apply is_digit_not_plus, is_2_to_9_digit).
  rewrite Hplus. unfold Js.is_plus in Hplus. rewrite Hplus.
  split; [done|]. split; [|done].
  destruct (Ascii.eqb_spec a "1") as [->|]; [|done]. by cbv in Ha.
Qed.

(** ** The normalizer and the phone pattern together *)

(** X1. A phone the validator accepts has 12 code units and is left as it
    is by the normalizer: typing in a valid field changes nothing. *)
Theorem validatePhoneFormat_fixed_point (phone : string) :
  validatePhoneFormat phone = true ->
  String.length phone = 12%nat /\ cleanPhoneInput phone = phone.
Proof.
  unfold validatePhoneFormat. intros H.
  pose proof (matches_classes_length _ _ H) as Hlen. simpl in Hlen.
  split; [done|]. unfold cleanPhoneInput.
  rewrite (remove_all_neg_id digit_or_plus) by by apply canadianPhoneRegex_chars.
  rewrite canadianPhoneRegex_startsWith by done. simpl negb. cbv iota.
  apply substring0_short. lia.
Qed.

Lemma validatePhoneFormat_fixed_point_witness :
  String.length "+13062776103" = 12%nat
  /\ cleanPhoneInput "+13062776103" = "+13062776103".
Proof. apply (validatePhoneFormat_fixed_point "+13062776103"). reflexivity. Defined.

(** X2. A national number of ten digits, typed bare, after a [1], after a
    [+] or after [+1], with any separators in between, is normalized to
    [+1] followed by those ten digits, which the validator accepts. *)
Theorem cleanPhoneInput_national_number (raw national : string) :
  national_number_regex national = true ->
  Js.remove_all not_digit_or_plus raw = national
  \/ Js.remove_all not_digit_or_plus raw = "1" ++ national
  \/ Js.remove_all not_digit_or_plus raw = "+" ++ national
  \/ Js.remove_all not_digit_or_plus raw = "+1" ++ national ->
  cleanPhoneInput raw = "+1" ++ national
  /\ validatePhoneFormat (cleanPhoneInput raw) = true.
Proof.
  intros Hn Hraw.
  assert (cleanPhoneInput raw = "+1" ++ national) as ->;
    [|split; [done|unfold validatePhoneFormat; by rewrite canadianPhoneRegex_national]].
  destruct (national_number_first national Hn) as (H1 & H2 & H3).
  unfold cleanPhoneInput. destruct Hraw as [-> | [-> | [-> | ->]]].
  - by rewrite H1, H2, H3.
  - reflexivity.
  - change ("+" ++ national) with (String "+" national).
    change (Js.startsWith (String "+" national) "+1") with (Js.startsWith national "1").
    change (Js.startsWith (String "+" national) "1") with false.
    by rewrite H2.
  - simpl Js.startsWith. simpl negb. cbv iota.
    apply substring0_short.
    pose proof (matches_classes_length _ _ Hn) as Hlen.
    change (String.length national = 10%nat) in Hlen.
    change ("+1" ++ national) with (String "+" (String "1" national)).
    cbn [String.length]. lia.
Qed.

Lemma cleanPhoneInput_national_number_witness :
  cleanPhoneInput "(306) 277-6103" = "+13062776103"
  /\ validatePhoneFormat (cleanPhoneInput "(306) 277-6103") = true.
Proof.
  apply (cleanPhoneInput_national_number "(306) 277-6103" "3062776103");
    [reflexivity|left; reflexivity].
Defined.

(** ** The rules of the phone and of the corporation number *)

Lemma runChecks_phone (s : string) :
  Zod.runChecks onboardingFormSchema.phone s
  = (((if (String.length s <? 1)%nat then ["Phone number is required"] else [])
        ++ (if negb (canadianPhoneRegex s)
            then ["Phone number must be a valid Canadian number starting with +1 followed by 10 digits"]
            else []))%list,
     Js.trim s).
Proof. simpl. by destruct (_ <? 1)%nat, (canadianPhoneRegex s). Qed.

Lemma safeParse_phone (s : string) :
  Zod.safeParse onboardingFormSchema.phone (Some s)
  = if validatePhoneFormat s then inl s
    else inr (if (String.length s =? 0)%nat
              then ["Phone number is required";
                    "Phone number must be a valid Canadian number starting with +1 followed by 10 digits"]
              else ["Phone number must be a valid Canadian number starting with +1 followed by 10 digits"]).
Proof.
  unfold Zod.safeParse, validatePhoneFormat. rewrite runChecks_phone.
  destruct (canadianPhoneRegex s) eqn:H.
  - pose proof (matches_classes_length _ _ H) as Hlen. simpl in Hlen.
    rewrite Hlen, canadianPhoneRegex_trim by done. done.
  - by destruct s.
Qed.

Lemma runChecks_corporationNumber (s : string) :
  Zod.runChecks onboardingFormSchema.corporationNumber s
  = (((if (String.length s <? 1)%nat then ["Corporation number is required"] else [])
        ++ (if negb (String.length s =? 9)%nat
            then ["Corporation number must be exactly 9 characters"] else [])
        ++ (if negb (nine_digits_regex s)
            then ["Corporation number must contain only digits"] else []))%list,
     s).
Proof.
  simpl. by destruct (_ <? 1)%nat, (_ =? 9)%nat, (nine_digits_regex s).
Qed.

Lemma nine_digits_regex_spec (s : string) :
  nine_digits_regex s = (String.length s =? 9)%nat && Js.all_chars Js.is_digit s.
Proof. apply matches_classes_repeat. Qed.

Lemma safeParse_corporationNumber (s : string) :
  match Zod.safeParse onboardingFormSchema.corporationNumber (Some s) with
  | inl value => value = s /\ corporationNumber_issue s = None
  | inr issues => head issues = corporationNumber_issue s /\ issues <> []
  end.
Proof.
  unfold Zod.safeParse, corporationNumber_issue.
  rewrite runChecks_corporationNumber, nine_digits_regex_spec.
  destruct s as [|c s]; [done|]. cbn [String.length Nat.ltb Nat.leb Nat.eqb].
  destruct (String.length s =? 8)%nat; simpl; [|done].
  by destruct (Js.is_digit c && Js.all_chars Js.is_digit s).
Qed.

Lemma fieldError_phone (input : gmap string string) (s : string) :
  input !! "phone" = Some s ->
  onboardingFormSchema.fieldError "phone" input = phone_issue s.
Proof.
  intros Hs. unfold onboardingFormSchema.fieldError, phone_issue.
  change (onboardingFormSchema.shape "phone") with (Some onboardingFormSchema.phone).
  rewrite Hs, safeParse_phone.
  destruct (validatePhoneFormat s); [done|].
  by destruct (String.length s =? 0)%nat.
Qed.

Lemma fieldError_corporationNumber (input : gmap string string) (s : string) :
  input !! "corporationNumber" = Some s ->
  onboardingFormSchema.fieldError "corporationNumber" input = corporationNumber_issue s.
Proof.
  intros Hs. pose proof (safeParse_corporationNumber s) as H.
  unfold onboardingFormSchema.fieldError.
  change (onboardingFormSchema.shape "corporationNumber")
    with (Some onboardingFormSchema.corporationNumber).
  rewrite Hs. destruct (Zod.safeParse _ _) as [v|issues]; by destruct H.
Qed.

(** X3. The phone rule accepts exactly the strings of the Canadian pattern
    and parses them unchanged; the error it reports is ["Phone number is
    required"] for the empty string and the format message for every other
    string outside the pattern. *)
Theorem schema_phone_rule (input : gmap string string) (s : string) :
  (accepts onboardingFormSchema.phone s = validatePhoneFormat s)
  /\ (validatePhoneFormat s = true ->
      Zod.safeParse onboardingFormSchema.phone (Some s) = inl s)
  /\ (input !! "phone" = Some s ->
      onboardingFormSchema.fieldError "phone" input = phone_issue s).
Proof.
  unfold accepts. split; [|split].
  - rewrite safeParse_phone. by destruct (validatePhoneFormat s).
  - intros H. by rewrite safeParse_phone, H.
  - apply fieldError_phone.
Qed.

Lemma schema_phone_rule_witness :
  Zod.safeParse onboardingFormSchema.phone (Some "+13062776103") = inl "+13062776103"
  /\ onboardingFormSchema.fieldError "phone" {[ "phone" := "" ]}
     = Some "Phone number is required".
Proof.
  split.
  - apply (schema_phone_rule ∅ "+13062776103"). reflexivity.
  - apply (schema_phone_rule {[ "phone" := "" ]} ""). reflexivity.
Defined.

(** X4. The corporation-number rule accepts exactly the strings of nine
    digits and parses them unchanged; the error it reports is the required
    message for the empty string, the length message for every other
    string that has not 9 code units, and the digits message for 9 code
    units that are not all digits. *)
Theorem schema_corporationNumber_rule (input : gmap string string) (s : string) :
  (accepts onboardingFormSchema.corporationNumber s
   = (String.length s =? 9)%nat && Js.all_chars Js.is_digit s)
  /\ (accepts onboardingFormSchema.corporationNumber s = true ->
      Zod.safeParse onboardingFormSchema.corporationNumber (Some s) = inl s)
  /\ (input !! "corporationNumber" = Some s ->
      onboardingFormSchema.fieldError "corporationNumber" input
      = corporationNumber_issue s).
Proof.
  pose proof (safeParse_corporationNumber s) as H.
  unfold accepts. split; [|split].
  - destruct (Zod.safeParse _ _) as [v|issues].
    + destruct H as [_ H]. unfold corporationNumber_issue in H.
      destruct s as [|c s]; [done|]. cbn [String.length Nat.eqb] in *.
      destruct (String.length s =? 8)%nat; [|done]. cbn in *.
      by destruct (Js.is_digit c && Js.all_chars Js.is_digit s).
    + destruct H as [H Hne]. unfold corporationNumber_issue in H.
      destruct s as [|c s]; [done|]. cbn [String.length Nat.eqb] in *.
      destruct (String.length s =? 8)%nat; [|done]. cbn in *.
      destruct (Js.is_digit c && Js.all_chars Js.is_digit s); [|done].
      by destruct issues.
  - destruct (Zod.safeParse _ _) as [v|issues]; [|done].
    by destruct H as [-> _].
  - apply fieldError_corporationNumber.
Qed.

Lemma schema_corporationNumber_rule_witness :
  Zod.safeParse onboardingFormSchema.corporationNumber (Some "123456789")
  = inl "123456789"
  /\ onboardingFormSchema.fieldError "corporationNumber"
       {[ "corporationNumber" := "12345678a" ]}
     = Some "Corporation number must contain only digits".
Proof.
  split.
  - apply (schema_corporationNumber_rule ∅ "123456789"). reflexivity.
  - apply (schema_corporationNumber_rule {[ "corporationNumber" := "12345678a" ]}
             "12345678a").
    reflexivity.
Defined.

(** ** The change handlers *)

Lemma cleanPhoneInput_not_empty (raw : string) :
  (String.length (cleanPhoneInput raw) =? 0)%nat = false.
Proof.
  pose proof (cleanPhoneInput_startsWith raw) as H.
  by destruct (cleanPhoneInput raw).
Qed.

(** X5. A change of the phone input stores the normalized value and sets
    the phone error to the format message exactly when that value is not a
    valid phone: the field never reports ["Phone number is required"] after
    a change. The other fields, their errors, the hooks' state and the
    requests are untouched. *)
Theorem handlePhoneChange_effect (target_value : string) (w : World) :
  let after := (OnboardingForm.handlePhoneChange target_value w).2 in
  values (form after) !! "phone" = Some (cleanPhoneInput target_value)
  /\ errors (form after) !! "phone"
     = (if validatePhoneFormat (cleanPhoneInput target_value) then None
        else Some "Phone number must be a valid Canadian number starting with +1 followed by 10 digits")
  /\ (forall field, field <> "phone" ->
        values (form after) !! field = values (form w) !! field
        /\ errors (form after) !! field = errors (form w) !! field)
  /\ corporationValidation after = corporationValidation w
  /\ formSubmission after = formSubmission w
  /\ formErrors after = formErrors w
  /\ requests after = requests w.
Proof.
  intros after. subst after.
  remember (validatePhoneFormat (cleanPhoneInput target_value)) as ok eqn:Hok.
  unfold OnboardingForm.handlePhoneChange, setValue, trigger, modify, mbind, M_bind.
  cbn -[cleanPhoneInput onboardingFormSchema.fieldError].
  rewrite (fieldError_phone _ (cleanPhoneInput target_value)) by apply lookup_insert_eq.
  unfold phone_issue. rewrite cleanPhoneInput_not_empty, <- Hok.
  split; [apply lookup_insert_eq|]. split.
  - destruct ok; [apply lookup_delete_eq|apply lookup_insert_eq].
  - split; [|done]. intros field Hfield. split; [by apply lookup_insert_ne|].
    destruct ok; [by apply lookup_delete_ne|by apply lookup_insert_ne].
Qed.

Lemma handlePhoneChange_effect_witness :
  let after := (OnboardingForm.handlePhoneChange "306-277-6103" mount).2 in
  values (form after) !! "phone" = Some "+13062776103"
  /\ errors (form after) !! "phone" = None
  /\ values (form after) !! "corporationNumber" = Some "".
Proof.
  intros after.
  destruct (handlePhoneChange_effect "306-277-6103" mount)
    as (Hvalue & Herror & Hother & _).
  split; [exact Hvalue|]. split; [exact Herror|].
  exact (proj1 (Hother "corporationNumber" ltac:(discriminate))).
Defined.

(** X6. A change of the corporation-number input that is taken (at most 9
    digits are left) sets the error of the field by the number of digits
    alone: the required message for none, no error for nine, the length
    message otherwise. The digits message is never reported. The other
    fields, their errors, the hooks' state and the requests are
    untouched. *)
Theorem handleCorporationNumberChange_effect (target_value : string) (w : World) :
  let value := Js.remove_all non_digit target_value in
  let after := (OnboardingForm.handleCorporationNumberChange target_value w).2 in
  (String.length value <= 9)%nat ->
  errors (form after) !! "corporationNumber"
  = (if (String.length value =? 0)%nat then Some "Corporation number is required"
     else if (String.length value =? 9)%nat then None
          else Some "Corporation number must be exactly 9 characters")
  /\ (forall field, field <> "corporationNumber" ->
        values (form after) !! field = values (form w) !! field
        /\ errors (form after) !! field = errors (form w) !! field)
  /\ corporationValidation after = corporationValidation w
  /\ formSubmission after = formSubmission w
  /\ formErrors after = formErrors w
  /\ requests after = requests w.
Proof.
  intros value after Hlen. subst after.
  unfold OnboardingForm.handleCorporationNumberChange. fold value.
  apply Nat.leb_le in Hlen. rewrite Hlen.
  unfold setValue, trigger, modify, mbind, M_bind.
  cbn -[onboardingFormSchema.fieldError].
  rewrite (fieldError_corporationNumber _ value) by apply lookup_insert_eq.
  unfold corporationNumber_issue.
  assert (Js.all_chars Js.is_digit value = true) as ->
    by apply (all_chars_remove_all_neg Js.is_digit).
  destruct (String.length value =? 0)%nat; [|destruct (String.length value =? 9)%nat];
    cbn [negb]; cbv iota;
    repeat split;
    first [ apply lookup_insert_eq | apply lookup_delete_eq
          | by apply lookup_insert_ne | by apply lookup_delete_ne ].
Qed.

Lemma handleCorporationNumberChange_effect_witness :
  errors (form (OnboardingForm.handleCorporationNumberChange "12a45" mount).2)
    !! "corporationNumber"
  = Some "Corporation number must be exactly 9 characters".
Proof.
  apply (handleCorporationNumberChange_effect "12a45" mount). simpl. lia.
Defined.

(** ** The service and the verification hook, for every input *)

(** X7. [apiService.validateCorporationNumber] makes one [GET] of
    [/corporation-number/<number>], resolves with the response data when
    the request is fulfilled, and rejects whenever the request is rejected,
    with status 400 as with any other: what it catches was built by the
    response interceptor as a plain object, not an [Error], so the test of
    its status-400 branch is false. [submitProfileDetails] makes one [POST]
    of the form data to [/profile-details] and rejects with the same
    object. *)
Theorem ApiService_rejections_rethrown (net : Network) (w : World)
  (corporationNumber : string) (formData : OnboardingFormData.t) :
  let verification := ApiService.validateCorporationNumber net corporationNumber w in
  let submission := ApiService.submitProfileDetails net formData w in
  requests verification.2 = (requests w ++ [GET (corporationNumberUrl corporationNumber)])%list
  /\ match get net (corporationNumberUrl corporationNumber) with
     | Fulfilled data => verification.1 = inl data
     | Rejected error =>
         verification.1
         = inr {| instanceofError := false;
                  thrown :=
                    {| ApiError.message :=
                         Js.or_else (AxiosError.message error) "An unexpected error occurred";
                       ApiError.status := AxiosError.response_status error |} |}
     end
  /\ requests submission.2 = (requests w ++ [POST "/profile-details" formData])%list
  /\ match post net "/profile-details" formData with
     | Fulfilled _ => submission.1 = inl tt
     | Rejected error =>
         submission.1
         = inr {| instanceofError := false;
                  thrown :=
                    {| ApiError.message :=
                         Js.or_else (AxiosError.message error) "An unexpected error occurred";
                       ApiError.status := AxiosError.response_status error |} |}
     end.
Proof.
  intros verification submission. subst verification submission.
  rewrite ApiService_validateCorporationNumber_run.
  unfold ApiService.submitProfileDetails, ApiService.client_post. cbn.
  split; [done|]. split; [by destruct (get net _)|].
  split; [done|]. by destruct (post net _ _) as [[]|].
Qed.

(** The hook, whatever the length of its argument. *)
Lemma validateCorporationNumber_cases (net : Network) (corporationNumber : string)
  (w : World) :
  (String.length corporationNumber <> 9%nat
   /\ useCorporationValidation.validateCorporationNumber net corporationNumber w
      = (None,
         {| corporationValidation :=
              {| isValidating := isValidating (corporationValidation w);
                 validationResult := None |};
            formSubmission := formSubmission w;
            formErrors := formErrors w;
            form := form w;
            requests := requests w |}))
  \/ (String.length corporationNumber = 9%nat
      /\ exists verdict : CorporationValidationResponse.t,
           useCorporationValidation.validateCorporationNumber net corporationNumber w
           = (Some verdict,
              {| corporationValidation :=
                   {| isValidating := false; validationResult := Some verdict |};
                 formSubmission := formSubmission w;
                 formErrors := formErrors w;
                 form := form w;
                 requests := requests w ++ [GET (corporationNumberUrl corporationNumber)] |})).
Proof.
  destruct (decide (String.length corporationNumber = 9%nat)) as [H|H].
  - right. split; [done|]. eexists. by apply validateCorporationNumber_run.
  - left. split; [done|].
    unfold useCorporationValidation.validateCorporationNumber.
    by rewrite guard_not_nine.
Qed.

(** X8. For every argument and every state, the hook returns the record it
    holds afterwards, and returns none exactly when the argument has not 9
    code units; it makes one verification request for 9 code units and no
    request otherwise; it leaves the submission state, the form errors and
    the stored values alone; and it ends with [isValidating] false whenever
    it made a request. *)
Theorem validateCorporationNumber_effect (net : Network) (corporationNumber : string)
  (w : World) :
  let r := useCorporationValidation.validateCorporationNumber net corporationNumber w in
  validationResult (corporationValidation r.2) = r.1
  /\ (r.1 = None <-> String.length corporationNumber <> 9%nat)
  /\ requests r.2
     = (if (String.length corporationNumber =? 9)%nat
        then requests w ++ [GET (corporationNumberUrl corporationNumber)]
        else requests w)%list
  /\ isValidating (corporationValidation r.2)
     = (if (String.length corporationNumber =? 9)%nat then false
        else isValidating (corporationValidation w))
  /\ formSubmission r.2 = formSubmission w
  /\ formErrors r.2 = formErrors w
  /\ form r.2 = form w.
Proof.
  intros r. subst r.
  destruct (validateCorporationNumber_cases net corporationNumber w)
    as [[Hlen ->]|[Hlen [verdict ->]]]; cbn.
  - apply Nat.eqb_neq in Hlen as Hb. rewrite Hb. by repeat split.
  - rewrite Hlen. cbn. repeat split; try done.
Qed.

(** ** Every outcome of [onSubmit] *)

Lemma opt_or_else_truthy (a : option string) (b : string) :
  Js.truthy b = true -> Js.truthy (Js.opt_or_else a b) = true.
Proof. destruct a as [m|]; simpl; [apply or_else_truthy|done]. Qed.

(** [onSubmit] is its three blocks in sequence, after the two resets. *)
Lemma onSubmit_blocks (net : Network) (held : option CorporationValidationResponse.t)
  (data : OnboardingFormData.t) :
  OnboardingForm.onSubmit net held data
  = (setFormErrors ∅ ;;
     useFormSubmission.resetSubmission ;;
     returned ← onSubmit_verification net held data;
     if returned : bool then mret tt else onSubmit_held_record net held data).
Proof. reflexivity. Qed.

Lemma onSubmit_submission_run (net : Network) (data : OnboardingFormData.t) (w : World) :
  onSubmit_submission net data w
  = (tt,
     match post net "/profile-details" data with
     | Fulfilled _ =>
         {| corporationValidation := corporationValidation w;
            formSubmission :=
              {| isSubmitting := false; submitError := None; isSuccess := true |};
            formErrors := formErrors w;
            form := form w;
            requests := requests w ++ [POST "/profile-details" data] |}
     | Rejected error =>
         let message := ApiError.message (thrown (ApiService.response_interceptor error)) in
         {| corporationValidation := corporationValidation w;
            formSubmission :=
              {| isSubmitting := false; submitError := Some message; isSuccess := false |};
            formErrors := {[ "submit" := message ]};
            form := form w;
            requests := requests w ++ [POST "/profile-details" data] |}
     end).
Proof.
  unfold onSubmit_submission, mbind, M_bind. rewrite !submitForm_run.
  destruct (post net _ _) as [[]|error]; [done|].
  cbn -[ApiService.response_interceptor Js.or_else].
  by rewrite (proj2 (proj2 (response_interceptor_message error))).
Qed.

(** The first block: nothing to verify, a number the hook does not send, a
    valid verdict, or an invalid one, which ends [onSubmit]. *)
Lemma onSubmit_verification_cases (net : Network)
  (held : option CorporationValidationResponse.t) (data : OnboardingFormData.t)
  (w : World) :
  let corporationNumber := OnboardingFormData.corporationNumber data in
  exists (returned : bool) (verifications : list Request)
         (validating : bool) (record : option CorporationValidationResponse.t)
         (errors : gmap string string),
    onSubmit_verification net held data w
    = (returned,
       {| corporationValidation :=
            {| isValidating := validating; validationResult := record |};
          formSubmission := formSubmission w;
          formErrors := errors;
          form := form w;
          requests := requests w ++ verifications |})
    /\ (verifications = []
        \/ (verifications = [GET (corporationNumberUrl corporationNumber)]
            /\ String.length corporationNumber = 9%nat))
    /\ (isValidating (corporationValidation w) = false -> validating = false)
    /\ (if returned
        then exists m, Js.truthy m = true /\ errors = {[ "corporationNumber" := m ]}
        else errors = formErrors w).
Proof.
  intros corporationNumber. unfold onSubmit_verification. fold corporationNumber.
  destruct (Js.truthy corporationNumber && _).
  - unfold mbind, M_bind.
    destruct (validateCorporationNumber_cases net corporationNumber w)
      as [[Hlen Hrun]|[Hlen [verdict Hrun]]]; rewrite !Hrun; cbn [fst snd].
    + exists false, [], (isValidating (corporationValidation w)), None, (formErrors w).
      rewrite app_nil_r. by repeat split; auto.
    + destruct (negb (CorporationValidationResponse.valid verdict)).
      * eexists true, [GET (corporationNumberUrl corporationNumber)], false,
          (Some verdict), _.
        split; [reflexivity|]. split; [by right|]. split; [done|].
        eexists. split; [|reflexivity]. by apply opt_or_else_truthy.
      * exists false, [GET (corporationNumberUrl corporationNumber)], false,
          (Some verdict), (formErrors w).
        by repeat split; auto.
  - exists false, [], (isValidating (corporationValidation w)),
      (validationResult (corporationValidation w)), (formErrors w).
    rewrite app_nil_r. destruct w as [[] ? ? ? ?]. by repeat split; auto.
Qed.

(** What [onSubmit] does, for every record of the render, every data and
    every state: the requests it adds, and the three ways it ends. *)
Lemma onSubmit_cases (net : Network) (held : option CorporationValidationResponse.t)
  (data : OnboardingFormData.t) (w : World) :
  let corporationNumber := OnboardingFormData.corporationNumber data in
  let after := (OnboardingForm.onSubmit net held data w).2 in
  exists verifications : list Request,
    (verifications = []
     \/ (verifications = [GET (corporationNumberUrl corporationNumber)]
         /\ String.length corporationNumber = 9%nat))
    /\ form after = form w
    /\ (isValidating (corporationValidation w) = false ->
        isValidating (corporationValidation after) = false)
    /\ ((exists m : string,
           Js.truthy m = true
           /\ formErrors after = {[ "corporationNumber" := m ]}
           /\ requests after = (requests w ++ verifications)%list
           /\ formSubmission after
              = {| isSubmitting := isSubmitting (formSubmission w);
                   submitError := None; isSuccess := false |})
        \/ (post net "/profile-details" data = Fulfilled tt
            /\ formErrors after = ∅
            /\ requests after
               = (requests w ++ verifications ++ [POST "/profile-details" data])%list
            /\ formSubmission after
               = {| isSubmitting := false; submitError := None; isSuccess := true |})
        \/ (exists error : AxiosError.t,
              post net "/profile-details" data = Rejected error
              /\ formErrors after
                 = {[ "submit" :=
                        ApiError.message (thrown (ApiService.response_interceptor error)) ]}
              /\ requests after
                 = (requests w ++ verifications ++ [POST "/profile-details" data])%list
              /\ formSubmission after
                 = {| isSubmitting := false;
                      submitError :=
                        Some (ApiError.message
                                (thrown (ApiService.response_interceptor error)));
                      isSuccess := false |})).
Proof.
  intros corporationNumber after. subst after.
  rewrite onSubmit_blocks. unfold mbind, M_bind.
  set (w0 := (useFormSubmission.resetSubmission (setFormErrors ∅ w).2).2).
  destruct (onSubmit_verification_cases net held data w0)
    as (returned & verifications & validating & record & errs
        & Hrun & Hverifications & Hvalidating & Herrs).
  rewrite !Hrun. cbn [fst snd].
  exists verifications. split; [exact Hverifications|].
  destruct returned.
  - destruct Herrs as (m & Hm & ->). cbn.
    split; [done|]. split; [exact Hvalidating|]. left. exists m. by repeat split.
  - subst errs. unfold onSubmit_held_record.
    assert ((forall r : CorporationValidationResponse.t,
               held = Some r -> CorporationValidationResponse.valid r = true)
            \/ (exists r, held = Some r /\ CorporationValidationResponse.valid r = false))
      as [Hpass|(r & -> & Hr)].
    { destruct held as [r|]; [|by left].
      destruct (CorporationValidationResponse.valid r) eqn:Hr; [left|right; by exists r].
      by intros ? [= <-]. }
    + assert (match held with
              | Some held0 =>
                  if negb (CorporationValidationResponse.valid held0)
                  then setFormErrors
                         {[ "corporationNumber" :=
                              Js.opt_or_else (CorporationValidationResponse.message held0)
                                "Invalid corporation number" ]}
                  else onSubmit_submission net data
              | None => onSubmit_submission net data
              end = onSubmit_submission net data) as ->.
      { destruct held as [r|]; [|done]. by rewrite (Hpass r eq_refl). }
      rewrite onSubmit_submission_run. cbn [fst snd].
      destruct (post net _ _) as [[]|error]; cbn -[ApiService.response_interceptor].
      * split; [done|]. split; [exact Hvalidating|]. right. left.
        rewrite <- app_assoc. by repeat split.
      * split; [done|]. split; [exact Hvalidating|]. right. right. exists error.
        rewrite <- app_assoc. by repeat split.
    + rewrite Hr. cbn.
      split; [done|]. split; [exact Hvalidating|]. left.
      exists (Js.opt_or_else (CorporationValidationResponse.message r)
                "Invalid corporation number").
      split; [by apply opt_or_else_truthy|]. by repeat split.
Qed.


(** What the resolver lets through. *)
Lemma safeParse_name_inl (required too_long : string) (input : option string)
  (value : string) :
  Zod.safeParse [Zod.min 1 required; Zod.max 50 too_long; Zod.trim] input = inl value ->
  (String.length value <= 50)%nat.
Proof.
  destruct input as [s|]; [|done]. unfold Zod.safeParse. rewrite runChecks_name.
  destruct (Nat.ltb_spec (String.length s) 1) as [H1|H1],
           (Nat.ltb_spec 50 (String.length s)) as [H2|H2]; simpl; try done.
  intros [= <-]. pose proof (length_trim s). lia.
Qed.

Lemma corporationNumber_issue_None (s : string) :
  corporationNumber_issue s = None -> nine_digits_regex s = true.
Proof.
  unfold corporationNumber_issue. rewrite nine_digits_regex_spec.
  destruct (String.length s =? 0)%nat; [done|].
  destruct (String.length s =? 9)%nat; [|done]. cbn.
  by destruct (Js.all_chars Js.is_digit s).
Qed.

Lemma safeParse_inl (input : gmap string string) (data : OnboardingFormData.t) :
  onboardingFormSchema.safeParse input = inl data ->
  request_well_formed (POST "/profile-details" data).
Proof.
  unfold onboardingFormSchema.safeParse.
  destruct (Zod.safeParse onboardingFormSchema.firstName _) as [f|] eqn:Hf; [|done].
  destruct (Zod.safeParse onboardingFormSchema.lastName _) as [l|] eqn:Hl; [|done].
  destruct (input !! "phone") as [p|] eqn:Hp; [|done].
  destruct (input !! "corporationNumber") as [c|] eqn:Hc;
    [|by destruct (Zod.safeParse onboardingFormSchema.phone _)].
  rewrite safeParse_phone.
  pose proof (safeParse_corporationNumber c) as Hcorp.
  destruct (validatePhoneFormat p) eqn:Hvalid; [|done].
  destruct (Zod.safeParse onboardingFormSchema.corporationNumber _) as [v|]; [|done].
  destruct Hcorp as [-> Hissue]. intros [= <-]. cbn.
  split; [done|].
  split; [by apply (safeParse_name_inl _ _ _ _ Hf)|].
  split; [by apply (safeParse_name_inl _ _ _ _ Hl)|].
  split; [done|by apply corporationNumber_issue_None].
Qed.

(** ** The requests of one blur and of one submit *)

(** X11. One call of the blur handler, in a state whose stored corporation
    number is as the change handler leaves it (at most 9 digits), and one
    press of submit, in any state, add only well-formed requests to those
    already made: a verification is a [GET] of [/corporation-number/]
    followed by nine digits, and a submission is a [POST] to
    [/profile-details] of data that the schema accepted: a phone of the
    Canadian pattern, a corporation number of nine digits, names of at
    most 50 code units. *)
Theorem blur_and_submit_requests (net : Network) (w : World) :
  (corporationNumber_stored_ok w ->
   exists added : list Request,
     requests (OnboardingForm.handleCorporationNumberBlur net w).2
     = (requests w ++ added)%list
     /\ Forall request_well_formed added)
  /\ (exists added : list Request,
        requests (OnboardingForm.form_onSubmit net w).2 = (requests w ++ added)%list
        /\ Forall request_well_formed added).
Proof.
  split.
  - intros Hstored.
    unfold OnboardingForm.handleCorporationNumberBlur, watch, gets, mbind, M_bind.
    cbn [fst snd]. unfold corporationNumber_stored_ok in Hstored.
    destruct (values (form w) !! "corporationNumber") as [v|];
      [|exists []; by rewrite app_nil_r].
    destruct (Js.truthy v && _); [|exists []; by rewrite app_nil_r].
    destruct (validateCorporationNumber_cases net v w)
      as [[Hlen Hrun]|[Hlen [verdict Hrun]]]; rewrite !Hrun; cbn.
    + exists []. by rewrite app_nil_r.
    + exists [GET (corporationNumberUrl v)]. split; [done|].
      apply Forall_singleton. exists v. split; [done|].
      rewrite nine_digits_regex_spec, Hlen. by destruct Hstored as [_ ->].
  - unfold OnboardingForm.form_onSubmit, handleSubmit, gets, modify, mbind, M_bind.
    cbn [fst snd].
    destruct (onboardingFormSchema.safeParse _) as [data|issues] eqn:Hparse;
      [|exists []; by rewrite app_nil_r].
    cbn [fst snd requests with_form]. apply safeParse_inl in Hparse.
    match goal with
    | |- context [OnboardingForm.onSubmit net ?h data ?w0] =>
        destruct (onSubmit_cases net h data w0)
          as (verifications & Hverifications & _ & _ & Hend);
        set (after := (OnboardingForm.onSubmit net h data w0).2) in *
    end.
    assert (Forall request_well_formed verifications) as Hv.
    { destruct Hverifications as [->|[-> Hlen]]; [done|].
      apply Forall_singleton. eexists. split; [done|]. apply Hparse. }
    destruct Hend
      as [(m & _ & _ & -> & _)|[(_ & _ & -> & _)|(error & _ & _ & -> & _)]]; cbn.
    + by exists verifications.
    + exists (verifications ++ [POST "/profile-details" data])%list. split; [done|].
      apply Forall_app. split; [done|]. by apply Forall_singleton.
    + exists (verifications ++ [POST "/profile-details" data])%list. split; [done|].
      apply Forall_app. split; [done|]. by apply Forall_singleton.
Qed.

Lemma blur_and_submit_requests_witness :
  let verdict :=
    {| CorporationValidationResponse.corporationNumber := "123456789";
       CorporationValidationResponse.valid := true;
       CorporationValidationResponse.message := None |} in
  let net := {| get := fun _ => Fulfilled verdict; post := fun _ _ => Fulfilled tt |} in
  let w := (OnboardingForm.handleCorporationNumberChange "123 456 789" mount).2 in
  exists added : list Request,
    requests (OnboardingForm.handleCorporationNumberBlur net w).2
    = (requests w ++ added)%list
    /\ Forall request_well_formed added.
Proof.
  intros verdict net w.
  apply (blur_and_submit_requests net w).
  apply handleCorporationNumberChange_ok, mount_corporationNumber_ok.
Defined.

(** ** The stored values under blur and submit *)

Lemma keeps_form_handleCorporationNumberBlur (net : Network) :
  keeps_form (OnboardingForm.handleCorporationNumberBlur net).
Proof.
  intros w.
  unfold OnboardingForm.handleCorporationNumberBlur, watch, gets, mbind, M_bind. cbn.
  destruct (values (form w) !! "corporationNumber") as [v|]; [|done].
  destruct (Js.truthy v && _); cbn; [|done].
  apply keeps_form_validateCorporationNumber.
Qed.

(** X12. Blur and submit never write a stored value: the hook, [onSubmit]
    and the blur handler leave the store of [useForm] as it is, and a
    press of submit changes its errors and its submitted flag only. The
    stored values are written by the change handlers alone. *)
Theorem blur_and_submit_keep_values (net : Network) (w : World) :
  (forall corporationNumber : string,
     form (useCorporationValidation.validateCorporationNumber net corporationNumber w).2
     = form w)
  /\ (forall (held : option CorporationValidationResponse.t) (data : OnboardingFormData.t),
        form (OnboardingForm.onSubmit net held data w).2 = form w)
  /\ form (OnboardingForm.handleCorporationNumberBlur net w).2 = form w
  /\ values (form (OnboardingForm.form_onSubmit net w).2) = values (form w).
Proof.
  split; [intros c; apply keeps_form_validateCorporationNumber|].
  split; [intros held data; apply keeps_form_onSubmit|].
  split; [apply keeps_form_handleCorporationNumberBlur|].
  unfold OnboardingForm.form_onSubmit, handleSubmit, gets, modify, mbind, M_bind. cbn.
  destruct (onboardingFormSchema.safeParse _) as [data|issues]; cbn; [|done].
  by rewrite keeps_form_onSubmit.
Qed.

(** ** The verdict on the screen *)

(** X13. After the hook has verified a number of 9 code units, with no
    schema error on the field: a rejected request shows its message under
    the field; an invalid verdict with a message shows that message; a
    valid verdict shows whatever [onSubmit] recorded for the field, if
    anything. In the first two cases the error recorded by [onSubmit] is
    not what is shown. *)
Theorem verdict_shown (net : Network) (corporationNumber : string) (w : World)
  (errors formErrors : gmap string string) :
  String.length corporationNumber = 9%nat ->
  (forall m, errors !! "corporationNumber" = Some m -> Js.truthy m = false) ->
  let after :=
    (useCorporationValidation.validateCorporationNumber net corporationNumber w).2 in
  let shown :=
    OnboardingForm.corporationNumberError errors
      (validationResult (corporationValidation after)) formErrors in
  match get net (corporationNumberUrl corporationNumber) with
  | Rejected error =>
      shown = Some (ApiError.message (thrown (ApiService.response_interceptor error)))
  | Fulfilled data =>
      if CorporationValidationResponse.valid data
      then shown = formErrors !! "corporationNumber"
      else forall m, CorporationValidationResponse.message data = Some m ->
                     Js.truthy m = true -> shown = Some m
  end.
Proof.
  intros Hlen Hschema after shown. subst shown after.
  rewrite validateCorporationNumber_run by done. cbn [snd corporationValidation validationResult].
  unfold OnboardingForm.corporationNumberError.
  rewrite (opt_or_falsy (errors !! "corporationNumber")) by exact Hschema.
  destruct (get net _) as [data|error].
  - destruct (CorporationValidationResponse.valid data); cbn [negb]; cbv iota.
    + done.
    + intros m -> Hm. by apply opt_or_truthy.
  - cbn [negb CorporationValidationResponse.valid CorporationValidationResponse.message].
    cbv iota. apply opt_or_truthy, (response_interceptor_message error).
Qed.

Lemma verdict_shown_witness :
  let net := {| get := fun _ => Fulfilled
                          {| CorporationValidationResponse.corporationNumber := "123456789";
                             CorporationValidationResponse.valid := false;
                             CorporationValidationResponse.message := Some "Not a registered corporation" |};
                post := fun _ _ => Fulfilled tt |} in
  OnboardingForm.corporationNumberError ∅
    (validationResult
       (corporationValidation
          (useCorporationValidation.validateCorporationNumber net "123456789" mount).2))
    {[ "corporationNumber" := "Invalid corporation number" ]}
  = Some "Not a registered corporation".
Proof.
  intros net.
  apply (verdict_shown net "123456789" mount ∅
           {[ "corporationNumber" := "Invalid corporation number" ]} eq_refl);
    [intros m Hm; discriminate Hm|reflexivity|reflexivity].
Defined.

(** ** The size of a normalized phone *)

Lemma length_remove_all (cls : ascii -> bool) (s : string) :
  (String.length (Js.remove_all cls s) <= String.length s)%nat.
Proof.
  induction s as [|c s IH]; simpl; [done|]. destruct (cls c); simpl; lia.
Qed.

Lemma length_substring0_le (n : nat) (s : string) :
  (String.length (Js.substring0 n s) <= String.length s)%nat.
Proof.
  unfold Js.substring0. revert n.
  induction s as [|c s IH]; intros [|n]; simpl; try lia.
  specialize (IH n). lia.
Qed.

Lemma length_remove_leading_plus (s : string) :
  (String.length (Js.remove_leading_plus s) <= String.length s)%nat.
Proof.
  destruct s as [|c s]; simpl; [done|]. destruct (Js.is_plus c); simpl; lia.
Qed.

Lemma length_append (s t : string) :
  String.length (s ++ t) = (String.length s + String.length t)%nat.
Proof. induction s as [|c s IH]; simpl; [done|]. by rewrite IH. Qed.

(** X14. A normalized phone has at least the 2 code units of [+1] and at
    most 2 more than the raw input; normalized a second time it has at
    most 12, and from then on normalizing changes nothing. *)
Theorem cleanPhoneInput_settles (raw : string) :
  (2 <= String.length (cleanPhoneInput raw) <= String.length raw + 2)%nat
  /\ (String.length (cleanPhoneInput (cleanPhoneInput raw)) <= 12)%nat
  /\ cleanPhoneInput (cleanPhoneInput (cleanPhoneInput raw))
     = cleanPhoneInput (cleanPhoneInput raw).
Proof.
  split; [split|split].
  - pose proof (cleanPhoneInput_startsWith raw) as H.
    destruct (cleanPhoneInput raw) as [|a [|b s]]; simpl in *; try done; try lia.
  - unfold cleanPhoneInput.
    pose proof (length_remove_all not_digit_or_plus raw) as Hc.
    set (cleaned := Js.remove_all not_digit_or_plus raw) in *.
    destruct (Js.startsWith cleaned "+1"); simpl negb; cbv iota.
    + pose proof (length_substring0_le 12 cleaned). lia.
    + destruct (Js.startsWith cleaned "1"); rewrite length_append.
      * simpl. lia.
      * pose proof (length_remove_leading_plus cleaned). simpl. lia.
  - rewrite cleanPhoneInput_twice. apply length_substring0.
  - apply cleanPhoneInput_idempotent_short.
    rewrite cleanPhoneInput_twice. apply length_substring0.
Qed.

(** ** [onSubmit] with a record for the same number *)

(** X15. When the record held by the render is for the corporation number
    being submitted, [onSubmit] makes no verification request. A valid
    record lets the submission through: one request, the [POST] of the
    whole data. An invalid record blocks it: no request at all, the
    record's message (or ["Invalid corporation number"] when it has none)
    as the corporationNumber error, and [isSuccess] false. *)
Theorem onSubmit_record_for_same_number (net : Network)
  (held : CorporationValidationResponse.t) (data : OnboardingFormData.t) (w : World) :
  CorporationValidationResponse.corporationNumber held
  = OnboardingFormData.corporationNumber data ->
  let after := (OnboardingForm.onSubmit net (Some held) data w).2 in
  if CorporationValidationResponse.valid held
  then requests after = (requests w ++ [POST "/profile-details" data])%list
  else requests after = requests w
       /\ formErrors after
          = {[ "corporationNumber" :=
                 Js.opt_or_else (CorporationValidationResponse.message held)
                   "Invalid corporation number" ]}
       /\ isSuccess (formSubmission after) = false.
Proof.
  intros Hsame after. subst after.
  destruct (CorporationValidationResponse.valid held) eqn:Hvalid.
  - by apply onSubmit_matching_valid_submits.
  - destruct (onSubmit_matching_invalid_blocks net held data w Hsame Hvalid) as [Hr He].
    split; [exact Hr|]. split; [exact He|].
    unfold OnboardingForm.onSubmit, mbind, M_bind.
    rewrite Hsame, String.eqb_refl, andb_false_r, Hvalid. by cbn.
Qed.

Lemma onSubmit_record_for_same_number_witness :
  let held :=
    {| CorporationValidationResponse.corporationNumber := "123456789";
       CorporationValidationResponse.valid := false;
       CorporationValidationResponse.message := None |} in
  let net := {| get := fun _ => Fulfilled held; post := fun _ _ => Fulfilled tt |} in
  let data := OnboardingFormData.mk "John" "Doe" "+13062776103" "123456789" in
  let after := (OnboardingForm.onSubmit net (Some held) data mount).2 in
  requests after = []
  /\ formErrors after = {[ "corporationNumber" := "Invalid corporation number" ]}
  /\ isSuccess (formSubmission after) = false.
Proof.
  intros held net data after.
  apply (onSubmit_record_for_same_number net held data mount eq_refl).
Defined.

(** ** [onSubmit] as the form calls it *)

(** The data [handleSubmit] hands to [onSubmit] has a corporation number of
    nine digits. *)
Lemma safeParse_corporationNumber_nine (input : gmap string string)
  (data : OnboardingFormData.t) :
  onboardingFormSchema.safeParse input = inl data ->
  String.length (OnboardingFormData.corporationNumber data) = 9%nat.
Proof.
  intros H. apply safeParse_inl in H. destruct H as (_ & _ & _ & _ & H).
  rewrite nine_digits_regex_spec in H. apply andb_true_iff in H as [H _].
  by apply Nat.eqb_eq in H.
Qed.

(** C1, as stated, fails: the form is submitted with valid fields and no
    record held, and the service answers with an invalid verdict that has
    no message. The verdict has no message to record; the field error is
    the text ["Invalid corporation number"] of the code. *)
Lemma onSubmit_verdict_without_message :
  let verdict :=
    {| CorporationValidationResponse.corporationNumber := "123456789";
       CorporationValidationResponse.valid := false;
       CorporationValidationResponse.message := None |} in
  let net := {| get := fun _ => Fulfilled verdict; post := fun _ _ => Fulfilled tt |} in
  let input : gmap string string :=
    <["firstName" := "John"]> (<["lastName" := "Doe"]> (<["phone" := "+13062776103"]>
      (<["corporationNumber" := "123456789"]> ∅))) in
  let data := OnboardingFormData.mk "John" "Doe" "+13062776103" "123456789" in
  let after := (OnboardingForm.onSubmit net None data mount).2 in
  onboardingFormSchema.safeParse input = inl data
  /\ validationResult (corporationValidation after) = Some verdict
  /\ CorporationValidationResponse.message verdict = None
  /\ formErrors after !! "corporationNumber" = Some "Invalid corporation number"
  /\ requests after = [GET "/corporation-number/123456789"].
Proof. by repeat split. Qed.

(** C1, amended. When [onSubmit] is called by the form, that is with data
    the schema accepted (its corporation number is then non-empty: nine
    digits), while no record is held or the held record is for another
    number, exactly one verification request is made, before any request
    to the submission endpoint, and its verdict becomes the held record.
    If that verdict is invalid, the submission endpoint is not called, and
    the corporationNumber field error is the verdict's message when it has
    a non-empty one, and ["Invalid corporation number"] otherwise. *)
Theorem onSubmit_submitted_verifies_first (net : Network)
  (held : option CorporationValidationResponse.t) (input : gmap string string)
  (data : OnboardingFormData.t) (w : World) :
  onboardingFormSchema.safeParse input = inl data ->
  let corporationNumber := OnboardingFormData.corporationNumber data in
  (forall r, held = Some r ->
             CorporationValidationResponse.corporationNumber r <> corporationNumber) ->
  let after := (OnboardingForm.onSubmit net held data w).2 in
  Js.truthy corporationNumber = true
  /\ exists (verdict : CorporationValidationResponse.t) (later : list Request),
       (useCorporationValidation.validateCorporationNumber net corporationNumber w).1
       = Some verdict
       /\ validationResult (corporationValidation after) = Some verdict
       /\ requests after
          = (requests w ++ GET (corporationNumberUrl corporationNumber) :: later)%list
       /\ (later = [] \/ later = [POST "/profile-details" data])
       /\ (CorporationValidationResponse.valid verdict = false ->
           later = []
           /\ formErrors after
              = {[ "corporationNumber" :=
                     match CorporationValidationResponse.message verdict with
                     | Some m => if Js.truthy m then m else "Invalid corporation number"
                     | None => "Invalid corporation number"
                     end ]}).
Proof.
  intros Hparse corporationNumber Hstale after.
  pose proof (safeParse_corporationNumber_nine input data Hparse) as Hlen.
  split; [by apply truthy_nine|].
  exact (onSubmit_verifies_first net held data w Hlen Hstale).
Qed.

Lemma onSubmit_submitted_verifies_first_witness :
  let stale :=
    {| CorporationValidationResponse.corporationNumber := "111111111";
       CorporationValidationResponse.valid := true;
       CorporationValidationResponse.message := None |} in
  let verdict :=
    {| CorporationValidationResponse.corporationNumber := "123456789";
       CorporationValidationResponse.valid := false;
       CorporationValidationResponse.message := Some "Not a registered corporation" |} in
  let net := {| get := fun _ => Fulfilled verdict; post := fun _ _ => Fulfilled tt |} in
  let input : gmap string string :=
    <["firstName" := "John"]> (<["lastName" := "Doe"]> (<["phone" := "+13062776103"]>
      (<["corporationNumber" := "123456789"]> ∅))) in
  let data := OnboardingFormData.mk "John" "Doe" "+13062776103" "123456789" in
  let held_stale :=
    with_corporationValidation
      (fun _ => {| isValidating := false; validationResult := Some stale |}) mount in
  (requests (OnboardingForm.onSubmit net (Some stale) data held_stale).2
   = [GET "/corporation-number/123456789"]
   /\ formErrors (OnboardingForm.onSubmit net (Some stale) data held_stale).2
      = {[ "corporationNumber" := "Not a registered corporation" ]})
  /\ (requests (OnboardingForm.onSubmit net None data mount).2
      = [GET "/corporation-number/123456789"]
      /\ formErrors (OnboardingForm.onSubmit net None data mount).2
         = {[ "corporationNumber" := "Not a registered corporation" ]}).
Proof.
  intros stale verdict net input data held_stale. split.
  - destruct (onSubmit_submitted_verifies_first net (Some stale) input data held_stale
                eq_refl)
      as (_ & v & later & Hv & _ & Hrequests & _ & Hinvalid).
    + intros r [= <-]. discriminate.
    + injection Hv as <-. destruct (Hinvalid eq_refl) as [-> Herrors].
      split; [exact Hrequests|exact Herrors].
  - destruct (onSubmit_submitted_verifies_first net None input data mount eq_refl)
      as (_ & v & later & Hv & _ & Hrequests & _ & Hinvalid).
    + intros r Hr. discriminate Hr.
    + injection Hv as <-. destruct (Hinvalid eq_refl) as [-> Herrors].
      split; [exact Hrequests|exact Herrors].
Defined.
